(** * sol-insight: the content poster of [src/main.py]

    A shallow embedding of [ContentPoster] and of the driver [main], and the
    properties its specification states about them.

    The program is sequential glue around three outside parties: a browser
    driven through Selenium, an HTTP endpoint reached through [requests], and
    the process environment.  The embedding keeps the program's own control
    flow (its [try]/[except] blocks, its truthiness tests, its early returns)
    and takes what the outside parties answer from an oracle, [Env], that may
    depend on everything the program has done so far. *)

From Stdlib Require Import ZArith Lia Ascii String List Bool.
From stdpp Require Import base option list strings gmap.

Set Warnings "-register-all".
Open Scope string_scope.
Open Scope list_scope.
Open Scope Z_scope.

(** ** Python strings

    Text is modelled by [string]; a character stands for the code point of the
    same number, so the model covers the code points below 256. *)

Module Py.

(** [str.isspace] on one character: the code points below 256 that Python
    treats as white space. *)
Definition isspace (c : ascii) : bool :=
  let n := nat_of_ascii c in
  ((9 <=? n) && (n <=? 13) || (28 <=? n) && (n <=? 32)
   || (n =? 133) || (n =? 160))%nat.

(** [str.lstrip()], [str.rstrip()] and [str.strip()] without argument. *)
Fixpoint lstrip (s : string) : string :=
  match s with
  | EmptyString => EmptyString
  | String c r => if isspace c then lstrip r else s
  end.

Fixpoint rstrip (s : string) : string :=
  match s with
  | EmptyString => EmptyString
  | String c r =>
      match rstrip r with
      | EmptyString => if isspace c then EmptyString else String c EmptyString
      | r' => String c r'
      end
  end.

Definition strip (s : string) : string := rstrip (lstrip s).

(** Every character of [s] is white space. *)
Fixpoint all_space (s : string) : bool :=
  match s with
  | EmptyString => true
  | String c r => isspace c && all_space r
  end.

(** The first, respectively the last, character of [s] is white space. *)
Definition starts_with_space (s : string) : bool :=
  match s with
  | EmptyString => false
  | String c _ => isspace c
  end.

Fixpoint ends_with_space (s : string) : bool :=
  match s with
  | EmptyString => false
  | String c EmptyString => isspace c
  | String _ r => ends_with_space r
  end.

(** Truthiness of a [str], and of an [Optional[str]]. *)
Definition truthy_str (s : string) : bool :=
  match s with EmptyString => false | _ => true end.

Definition truthy_opt (o : option string) : bool :=
  match o with None => false | Some s => truthy_str s end.

(** [sep.join(l)]. *)
Fixpoint join (sep : string) (l : list string) : string :=
  match l with
  | [] => EmptyString
  | [x] => x
  | x :: r => x +:+ sep +:+ join sep r
  end.

(** [t in s] on strings. *)
Fixpoint is_prefix (t s : string) : bool :=
  match t, s with
  | EmptyString, _ => true
  | String a t', String b s' => Ascii.eqb a b && is_prefix t' s'
  | String _ _, EmptyString => false
  end.

Fixpoint contains (s t : string) : bool :=
  is_prefix t s
  || match s with
     | EmptyString => false
     | String _ r => contains r t
     end.

(** [int(s)] for a string in base ten: surrounding white space, one optional
    sign, then digits, single underscores allowed between digits, at most
    4300 digits (the default of [sys.set_int_max_str_digits]).  [None] is
    the [ValueError] of an invalid literal.

    The white space [int] skips is not that of [str.strip]: an ASCII
    character is skipped when C's [isspace] accepts it (9 to 13 and 32), a
    character above 127 when [str.isspace] does; the separators 28 to 31
    are not skipped. *)
Definition int_space (c : ascii) : bool :=
  let n := nat_of_ascii c in
  ((9 <=? n) && (n <=? 13) || (n =? 32) || (n =? 133) || (n =? 160))%nat.

Fixpoint int_lstrip (s : string) : string :=
  match s with
  | EmptyString => EmptyString
  | String c r => if int_space c then int_lstrip r else s
  end.

Fixpoint int_rstrip (s : string) : string :=
  match s with
  | EmptyString => EmptyString
  | String c r =>
      match int_rstrip r with
      | EmptyString =>
          if int_space c then EmptyString else String c EmptyString
      | r' => String c r'
      end
  end.

Definition digit_of (c : ascii) : option Z :=
  let n := nat_of_ascii c in
  if ((48 <=? n) && (n <=? 57))%nat then Some (Z.of_nat (n - 48)) else None.

Fixpoint digits (s : string) (acc : Z) (after_digit : bool) : option Z :=
  match s with
  | EmptyString => if after_digit then Some acc else None
  | String c r =>
      match digit_of c with
      | Some d => digits r (10 * acc + d) true
      | None =>
          if Ascii.eqb c "_" && after_digit then digits r acc false else None
      end
  end.

Fixpoint count_digits (s : string) : nat :=
  match s with
  | EmptyString => O
  | String c r =>
      match digit_of c with
      | Some _ => S (count_digits r)
      | None => count_digits r
      end
  end.

Definition max_str_digits : nat := 4300.

(** The digits after the sign. *)
Definition literal (r : string) : option Z :=
  if (count_digits r <=? max_str_digits)%nat then digits r 0 false else None.

Definition int (s : string) : option Z :=
  match int_rstrip (int_lstrip s) with
  | String "+" r => literal r
  | String "-" r => Z.opp <$> literal r
  | r => literal r
  end.

End Py.

(** ** Exceptions

    The classes are those the program's libraries raise; all of them derive
    from [Exception].  Signals delivered from outside the program
    ([KeyboardInterrupt]) are not part of the model. *)

Inductive exn_class :=
  | TimeoutException | NoSuchElementException | WebDriverException
  | RequestException | HTTPError | ConnectionError | ReadTimeout
  | JSONDecodeError | KeyError | TypeError | ValueError | OverflowError
  | OSError | RuntimeError.

Record exn := Exn { exn_cls : exn_class; exn_msg : string }.

(** [isinstance(e, requests.RequestException)]. *)
Definition is_RequestException (e : exn) : bool :=
  match exn_cls e with
  | RequestException | HTTPError | ConnectionError | ReadTimeout => true
  | _ => false
  end.

(** [isinstance(e, (TimeoutException, NoSuchElementException))]. *)
Definition is_wait_failure (e : exn) : bool :=
  match exn_cls e with
  | TimeoutException | NoSuchElementException => true
  | _ => false
  end.

(** ** Python values that travel through the program: what [json.loads]
    returns and what [send_keys] and [driver.get] are handed. *)

Inductive value :=
  | VNone
  | VBool (b : bool)
  | VInt (z : Z)
  | VFloat (literal : string)
  | VStr (s : string)
  | VList (l : list value)
  | VDict (items : list (string * value)).

Definition of_opt (o : option string) : value :=
  match o with None => VNone | Some s => VStr s end.

(** A [dict] built from pairs in order: a later pair replaces an earlier one
    with the same key, so the lookup returns the last binding. *)
Fixpoint dict_get (k : string) (items : list (string * value)) : option value :=
  match items with
  | [] => None
  | (k', v) :: r =>
      match dict_get k r with
      | Some v' => Some v'
      | None => if String.eqb k k' then Some v else None
      end
  end.

(** [v[k]] for a string key [k]. *)
Definition getitem (v : value) (k : string) : exn + value :=
  match v with
  | VDict items =>
      match dict_get k items with
      | Some x => inr x
      | None => inl (Exn KeyError ("'" +:+ k +:+ "'"))
      end
  | VList _ => inl (Exn TypeError "list indices must be integers or slices, not str")
  | VStr _ => inl (Exn TypeError "string indices must be integers, not 'str'")
  | _ => inl (Exn TypeError "object is not subscriptable")
  end.

(** The JSON document has the key [k]: it is an object that binds it. *)
Definition has_key (k : string) (v : value) : bool :=
  match v with
  | VDict items => match dict_get k items with Some _ => true | None => false end
  | _ => false
  end.

(** ** The browser, the HTTP session and the log *)

Inductive By := By_ID | By_XPATH.

Inductive Cond :=
  | visibility_of_element_located
  | element_to_be_clickable
  | presence_of_element_located.

(** [WebDriverWait(driver, timeout).until(cond((by, locator)))]. *)
Record Wait := mkWait
  { w_timeout : Z; w_cond : Cond; w_by : By; w_locator : string }.

(** A [WebElement] handle. *)
Definition Element := N.

(** A browser cookie: the three fields [login] reads. *)
Record Cookie := mkCookie
  { c_name : string; c_value : string; c_domain : string }.

Record Response := mkResponse { status_code : Z; text : string }.

(** The cookie jar of the [requests] session, a value for each domain and
    name. *)
Abbreviation Jar := (gmap (string * string) string).

(** What the browser returns for a cookie: a dict that binds [name],
    [value] and [domain] to strings, or a dict that lacks one of these
    keys, [key] being the first of the three it lacks. *)
Inductive BrowserCookie :=
  | Whole (c : Cookie)
  | Lacking (key : string).

(** The [value.replace] of [set_cookie]: every backslash followed by a
    double quote is removed, from left to right. *)
Fixpoint drop_escaped_quotes (s : string) : string :=
  match s with
  | EmptyString => EmptyString
  | String a t =>
      match t with
      | String b r =>
          if Ascii.eqb a "092" && Ascii.eqb b "034"
          then drop_escaped_quotes r
          else String a (drop_escaped_quotes t)
      | EmptyString => s
      end
  end.

Definition starts_with_quote (s : string) : bool :=
  match s with
  | String c _ => Ascii.eqb c "034"
  | EmptyString => false
  end.

Fixpoint ends_with_quote (s : string) : bool :=
  match s with
  | EmptyString => false
  | String c EmptyString => Ascii.eqb c "034"
  | String _ r => ends_with_quote r
  end.

(** The value [RequestsCookieJar.set_cookie] stores: a value that starts
    and ends with a double quote loses its escaped quotes. *)
Definition stored_value (v : string) : string :=
  if starts_with_quote v && ends_with_quote v then drop_escaped_quotes v
  else v.

(** [jar.set(name, value, domain=domain)]. *)
Definition jar_set (c : Cookie) (jar : Jar) : Jar :=
  <[(c_domain c, c_name c) := stored_value (c_value c)]> jar.

(** [bool(jar)] is [len(jar) != 0]. *)
Definition jar_truthy (jar : Jar) : bool := negb (Nat.eqb (size jar) 0).

(** The calls the program makes on the outside world, in the order it makes
    them.  A call is recorded when it is made, whether it returns or raises;
    a wait is recorded with the element it found, if any. *)
Inductive Event :=
  | EvMkdtemp
  | EvChrome (arguments : list string)
  | EvSetPageLoadTimeout (secs : Z)
  | EvSetScriptTimeout (secs : Z)
  | EvImplicitlyWait (secs : Z)
  | EvGet (url : value)
  | EvUntil (w : Wait) (found : option Element)
  | EvSendKeys (el : Element) (keys : value)
  | EvClear (el : Element)
  | EvClick (el : Element)
  | EvGetCookies
  | EvHttpGet (url : value) (timeout : Z) (jar : Jar)
  | EvSleep (secs : Z).

Inductive Level := DEBUG | INFO | WARNING | ERROR.

(** A log message: the literal parts of the f-string and what is
    interpolated between them. *)
Inductive frag :=
  | Txt (s : string)
  | Val (v : value)
  | Err (e : exn)
  | Num (z : Z).

Record LogRecord := mkLog { l_level : Level; l_msg : list frag }.

(** [logging.basicConfig(level=logging.INFO)]. *)
Definition enabled (l : Level) : bool :=
  match l with DEBUG => false | _ => true end.

(** What the program can change: the calls made so far, the session's cookie
    jar, and the log. *)
Record World := mkWorld
  { trace : list Event; cookies : Jar; logs : list LogRecord }.

(** What the outside answers.  Every answer may depend on the calls made
    before it. *)
Record Env := mkEnv
  { environ : gmap string string;
    json_loads : string -> exn + value;
    mkdtemp : list Event -> exn + string;
    (** a call that returns nothing: [None] when it returns, [Some e] when
        it raises [e] *)
    call : list Event -> Event -> option exn;
    until : list Event -> Wait -> exn + Element;
    get_cookies : list Event -> exn + list BrowserCookie;
    session_get : list Event -> Jar -> value -> Z -> exn + Response;
    (** the jar of the session once the request is over, whether it
        returned or raised: [requests] stores into it, and deletes from it,
        the cookies the responses name in [Set-Cookie] *)
    session_jar : list Event -> Jar -> value -> Z -> Jar }.

(** ** The monad of the program: state and exceptions *)

Inductive result (A : Type) :=
  | Return (a : A)
  | Raise (e : exn).
Arguments Return {A} a.
Arguments Raise {A} e.

Definition M (A : Type) : Type := World -> result A * World.

Definition ret {A} (a : A) : M A := fun w => (Return a, w).

Definition raise {A} (e : exn) : M A := fun w => (Raise e, w).

Definition bind {A B} (m : M A) (k : A -> M B) : M B :=
  fun w =>
    match m w with
    | (Return a, w') => k a w'
    | (Raise e, w') => (Raise e, w')
    end.

(** [try: m  except C as e: h e], where [catches e] says [e] is a [C]. *)
Definition try_except {A} (m : M A) (catches : exn -> bool) (h : exn -> M A)
  : M A :=
  fun w =>
    match m w with
    | (Return a, w') => (Return a, w')
    | (Raise e, w') => if catches e then h e w' else (Raise e, w')
    end.

(** [except Exception]: every modelled class. *)
Definition Exception (e : exn) : bool := true.

Notation "x <- m ;; k" := (bind m (fun x => k))
  (at level 100, m at next level, right associativity).
Notation "m ;; k" := (bind m (fun _ => k))
  (at level 100, right associativity).

(** Appending to the trace and to the log. *)
Definition emit (ev : Event) : M unit :=
  fun w => (Return tt, mkWorld (trace w ++ [ev]) (cookies w) (logs w)).

Definition log (l : Level) (msg : list frag) : M unit :=
  fun w =>
    (Return tt,
     if enabled l then mkWorld (trace w) (cookies w) (logs w ++ [mkLog l msg])
     else w).

(** [self.session = requests.Session()]: a session with an empty jar. *)
Definition new_session : M unit :=
  fun w => (Return tt, mkWorld (trace w) ∅ (logs w)).

Definition set_cookie (c : Cookie) : M unit :=
  fun w => (Return tt, mkWorld (trace w) (jar_set c (cookies w)) (logs w)).

(** The body of the loop of [login]:
    [self.session.cookies.set(cookie['name'], cookie['value'],
    domain=cookie['domain'])].  A key the dict lacks is a [KeyError]. *)
Definition copy_cookie (c : BrowserCookie) : M unit :=
  match c with
  | Whole c => set_cookie c
  | Lacking key => raise (Exn KeyError ("'" +:+ key +:+ "'"))
  end.

Definition lift {A} (r : exn + A) : M A :=
  match r with inl e => raise e | inr a => ret a end.

Fixpoint for_each {A} (l : list A) (body : A -> M unit) : M unit :=
  match l with
  | [] => ret tt
  | x :: r => body x ;; for_each r body
  end.

(** ** The program *)

Section ContentPoster.

Variable E : Env.

(** [os.getenv(k)], after [load_dotenv()]. *)
Definition getenv (k : string) : option string := environ E !! k.

(** A call on the driver or an element that returns nothing. *)
Definition do_call (ev : Event) : M unit :=
  fun w =>
    let w' := mkWorld (trace w ++ [ev]) (cookies w) (logs w) in
    match call E (trace w) ev with
    | None => (Return tt, w')
    | Some e => (Raise e, w')
    end.

Definition driver_get (url : value) : M unit := do_call (EvGet url).
Definition send_keys (el : Element) (keys : value) : M unit :=
  do_call (EvSendKeys el keys).
Definition clear (el : Element) : M unit := do_call (EvClear el).
Definition click (el : Element) : M unit := do_call (EvClick el).

Definition wait_until (timeout : Z) (c : Cond) (b : By) (locator : string)
  : M Element :=
  fun w =>
    let wt := mkWait timeout c b locator in
    let record found :=
      mkWorld (trace w ++ [EvUntil wt found]) (cookies w) (logs w) in
    match until E (trace w) wt with
    | inr el => (Return el, record (Some el))
    | inl e => (Raise e, record None)
    end.

Definition driver_get_cookies : M (list BrowserCookie) :=
  fun w =>
    let w' := mkWorld (trace w ++ [EvGetCookies]) (cookies w) (logs w) in
    match get_cookies E (trace w) with
    | inr l => (Return l, w')
    | inl e => (Raise e, w')
    end.

(** [self.session.get(url, timeout=t)]: the request carries the jar, and
    the session keeps the cookies the responses set. *)
Definition http_get (url : value) (timeout : Z) : M Response :=
  fun w =>
    let w' :=
      mkWorld (trace w ++ [EvHttpGet url timeout (cookies w)])
        (session_jar E (trace w) (cookies w) url timeout) (logs w) in
    match session_get E (trace w) (cookies w) url timeout with
    | inr r => (Return r, w')
    | inl e => (Raise e, w')
    end.

Definition make_temp_dir : M string :=
  fun w =>
    let w' := mkWorld (trace w ++ [EvMkdtemp]) (cookies w) (logs w) in
    match mkdtemp E (trace w) with
    | inr d => (Return d, w')
    | inl e => (Raise e, w')
    end.

(** [time.sleep(secs)] for an integer: the length is first converted to
    nanoseconds in a signed 64-bit integer, an [OverflowError] when it does
    not fit; a negative length is then a [ValueError]. *)
Definition sleep_max : Z := 9223372036.

Definition time_sleep (secs : Z) : M unit :=
  if (secs <? - sleep_max) || (sleep_max <? secs) then
    raise (Exn OverflowError "timestamp too large to convert to C _PyTime_t")
  else if secs <? 0 then
    raise (Exn ValueError "sleep length must be non-negative")
  else emit (EvSleep secs).

(** [response.raise_for_status()]. *)
Definition raise_for_status (r : Response) : M unit :=
  if (400 <=? status_code r) && (status_code r <? 600)
  then raise (Exn HTTPError "Client or Server Error")
  else ret tt.

Definition required_vars : list string :=
  ["GENERATION_ENDPOINT"; "PLATFORM_POST_URL"; "LOGIN_URL"; "EMAIL";
   "PASSWORD"].

(** [not os.getenv(var)]. *)
Definition missing (var : string) : bool := negb (Py.truthy_opt (getenv var)).

Definition _validate_env_vars : M unit :=
  let missing_vars := List.filter missing required_vars in
  match missing_vars with
  | [] => ret tt
  | _ =>
      raise (Exn ValueError
               ("Missing required environment variables: "
                +:+ Py.join ", " missing_vars))
  end.

Definition chrome_arguments : list string :=
  ["--headless"; "--no-sandbox"; "--disable-dev-shm-usage"; "--disable-gpu";
   "--disable-extensions"; "--disable-software-rasterizer";
   "--remote-debugging-port=9222"].

(** [ContentPoster.__init__]. *)
Definition init : M unit :=
  _validate_env_vars ;;
  temp_dir <- make_temp_dir ;;
  try_except
    (do_call (EvChrome (chrome_arguments ++ ["--user-data-dir=" +:+ temp_dir])) ;;
     do_call (EvSetPageLoadTimeout 30) ;;
     do_call (EvSetScriptTimeout 30) ;;
     do_call (EvImplicitlyWait 10))
    Exception
    (fun e => log ERROR [Txt "Failed to initialize Chrome driver: "; Err e] ;;
              raise e) ;;
  new_session.

Definition find_element_safely (b : By) (v : string) (timeout : Z)
  : M (option Element) :=
  try_except
    (element <- wait_until timeout visibility_of_element_located b v ;;
     ret (Some element))
    is_wait_failure
    (fun e => log ERROR [Txt "Could not find element "; Txt v; Txt ": "; Err e] ;;
              ret None).

Definition login_marker : string :=
  "/html/body/section/div[1]/div[3]/div[2]/div[4]/div[2]/div/div/div/div/div[1]/table/tbody/tr[1]/td[1]/h3/a/div".

Definition login : M bool :=
  let login_url := getenv "LOGIN_URL" in
  try_except
    (driver_get (of_opt login_url) ;;
     username_input <-
       wait_until 10 visibility_of_element_located By_ID "login-account-name" ;;
     password_input <-
       wait_until 10 visibility_of_element_located By_ID "login-account-password" ;;
     login_button <-
       wait_until 10 element_to_be_clickable By_ID "login-button" ;;
     send_keys username_input (of_opt (getenv "EMAIL")) ;;
     send_keys password_input (of_opt (getenv "PASSWORD")) ;;
     click login_button ;;
     wait_until 10 presence_of_element_located By_XPATH login_marker ;;
     cookies <- driver_get_cookies ;;
     for_each cookies copy_cookie ;;
     log INFO [Txt "Successfully logged in"] ;;
     ret true)
    Exception
    (fun e => log ERROR [Txt "Login failed: "; Err e] ;; ret false).

Definition fetch_content : M (option string) :=
  let endpoint := getenv "GENERATION_ENDPOINT" in
  try_except
    (response <- http_get (of_opt endpoint) 2000 ;;
     raise_for_status response ;;
     let content := Py.strip (text response) in
     if negb (Py.truthy_str content) then
       log WARNING [Txt "Fetched empty content"] ;;
       ret None
     else
       log INFO [Txt "Successfully fetched content (length: ";
                 Num (Z.of_nat (String.length content)); Txt " chars)"] ;;
       log INFO [Txt "Fetched content: "; Val (VStr content)] ;;
       ret (Some content))
    is_RequestException
    (fun e => log ERROR [Txt "Content fetching failed: "; Err e] ;; ret None).

Definition new_topic_xpath : string := "//span[contains(text(), 'New Topic')]".
Definition title_xpath : string :=
  "//input[@aria-label='What is this discussion about in one brief sentence?']".
Definition category_xpath : string :=
  "//*[@id='ember97-header']/div/div/span/span/span/span".
Definition option_xpath : string := "//*[@id='ember97-body']/ul/div[1]".
Definition body_xpath : string :=
  "//textarea[@aria-label='Type here. Use Markdown, BBCode, or HTML to format. Drag or paste images.']".
Definition create_topic_xpath : string :=
  "//*[@id='reply-control']/div[3]/div[3]/div[1]/button".

Definition post_content_to_platform (content : string) : M bool :=
  fun w =>
    if negb (jar_truthy (cookies w)) then
      (log ERROR [Txt "No session cookies. Please login first."] ;;
       ret false) w
    else
      let platform_url := getenv "PLATFORM_POST_URL" in
      try_except
        (log INFO [Txt "Navigating to platform URL"] ;;
         driver_get (of_opt platform_url) ;;
         new_topic_button <-
           wait_until 10 element_to_be_clickable By_XPATH new_topic_xpath ;;
         click new_topic_button ;;
         title_input <-
           wait_until 10 visibility_of_element_located By_XPATH title_xpath ;;
         content_data <- lift (json_loads E content) ;;
         topic <- lift (getitem content_data "topic") ;;
         log INFO [Txt "Title to be posted: "; Val topic] ;;
         forumPost <- lift (getitem content_data "forumPost") ;;
         log INFO [Txt "Forum post content to be posted: "; Val forumPost] ;;
         clear title_input ;;
         topic <- lift (getitem content_data "topic") ;;
         send_keys title_input topic ;;
         log INFO [Txt "Waiting for the category selection dropdown to be visible"] ;;
         category_dropdown <-
           wait_until 10 visibility_of_element_located By_XPATH category_xpath ;;
         click category_dropdown ;;
         log INFO [Txt "Waiting for the sRFC option to be visible"] ;;
         sRFC_option <-
           wait_until 10 visibility_of_element_located By_XPATH option_xpath ;;
         click sRFC_option ;;
         log INFO [Txt "Waiting for the body input field to be visible"] ;;
         body_input <-
           wait_until 300 visibility_of_element_located By_XPATH body_xpath ;;
         log INFO [Txt "Entering content into the body input field"] ;;
         clear body_input ;;
         forumPost <- lift (getitem content_data "forumPost") ;;
         send_keys body_input forumPost ;;
         log INFO [Txt "Waiting for the 'Create Topic' button to be clickable"] ;;
         create_topic_button <-
           wait_until 10 element_to_be_clickable By_XPATH create_topic_xpath ;;
         log INFO [Txt "Clicking the 'Create Topic' button"] ;;
         click create_topic_button ;;
         log INFO [Txt "Content posted to the platform successfully"] ;;
         ret true)
        Exception
        (fun e =>
           log ERROR [Txt "Content posting to the platform failed: "; Err e] ;;
           log DEBUG [Txt "Content attempted to post: "; Val (VStr content)] ;;
           ret false)
        w.

(** [ContentPoster.run]: [if not content] is the truthiness of an
    [Optional[str]]. *)
Definition run : M bool :=
  logged_in <- login ;;
  if negb logged_in then ret false
  else
    content <- fetch_content ;;
    match content with
    | Some c =>
        if negb (Py.truthy_str c) then ret false
        else
          posted <- post_content_to_platform c ;;
          if negb posted then ret false else ret true
    | None => ret false
    end.

(** ** The driver *)

(** One pass through the [try] block of [main]. *)
Definition cycle : M unit :=
  try_except
    (success <- run ;;
     if success
     then log INFO [Txt "Content posting workflow completed successfully"]
     else log ERROR [Txt "Content posting workflow failed"])
    Exception
    (fun e => log ERROR [Txt "Unexpected error: "; Err e]).

(** The body of [while True]. *)
Definition iteration (posting_interval : Z) : M unit :=
  cycle ;;
  log INFO [Txt "Waiting for "; Num posting_interval; Txt " hours..."] ;;
  time_sleep (posting_interval * 60 * 60).

(** How the process ends: [exit(code)] or an exception nobody caught. *)
Inductive ending :=
  | SystemExit (code : Z)
  | Uncaught (e : exn).

(** [while True: body], observed for [n] iterations: [None] when all [n]
    returned and the loop goes on, [Some e] when one raised [e]. *)
Fixpoint while_true (n : nat) (body : M unit) (w : World)
  : option exn * World :=
  match n with
  | O => (None, w)
  | S k =>
      match body w with
      | (Return _, w') => while_true k body w'
      | (Raise e, w') => (Some e, w')
      end
  end.

(** The [else] branch of [main]: one cycle, then [exit(0)]. *)
Definition run_once (w : World) : option ending * World :=
  match cycle w with
  | (Return _, w') => (Some (SystemExit 0), w')
  | (Raise e, w') => (Some (Uncaught e), w')
  end.

(** What [main] does after [poster = ContentPoster()]. *)
Definition drive (n : nat) (w : World) : option ending * World :=
  match getenv "POSTING_INTERVAL" with
  | Some s =>
      if Py.truthy_str s then
        match Py.int s with
        | None =>
            (Some (Uncaught (Exn ValueError
                               ("invalid literal for int() with base 10: '"
                                +:+ s +:+ "'"))), w)
        | Some posting_interval =>
            match while_true n (iteration posting_interval) w with
            | (None, w') => (None, w')
            | (Some e, w') => (Some (Uncaught e), w')
            end
        end
      else run_once w
  | None => run_once w
  end.

(** [main()], its loop observed for [n] iterations: [None] when the process
    is still running after them. *)
Definition main (n : nat) (w : World) : option ending * World :=
  match init w with
  | (Raise e, w') => (Some (Uncaught e), w')
  | (Return _, w') => drive n w'
  end.

(** ** Vocabulary of the properties *)

(** The wait for the marker that only a logged-in page shows. *)
Definition marker_wait : Wait :=
  mkWait 10 presence_of_element_located By_XPATH login_marker.

(** What the endpoint answers to the request [fetch_content] makes in [w]. *)
Definition endpoint_answer (w : World) : exn + Response :=
  session_get E (trace w) (cookies w)
    (of_opt (getenv "GENERATION_ENDPOINT")) 2000.

(** The jar of the session after that request. *)
Definition jar_after_fetch (w : World) : Jar :=
  session_jar E (trace w) (cookies w)
    (of_opt (getenv "GENERATION_ENDPOINT")) 2000.

(** The content is malformed: it is not JSON, or it is JSON without a
    [topic] key or without a [forumPost] key. *)
Definition malformed (content : string) : Prop :=
  match json_loads E content with
  | inl _ => True
  | inr v => has_key "topic" v = false \/ has_key "forumPost" v = false
  end.

(** The longest interval, in hours, whose seconds [time.sleep] accepts. *)
Definition max_interval : Z := 2562047.


End ContentPoster.

(** ** A JSON decoder

    The program takes its decoder from the [json] library, which [Env]
    leaves open; the theorems hold for every decoder.  This one serves as
    the decoder of the concrete environments below.  It reads objects,
    arrays, strings with their escapes, numbers, the three literals and the
    constants [NaN] and [Infinity], within the limits of the model: an
    escape [\uXXXX] above [\u00ff] has no character in a [string] and is
    rejected, and a number with a fraction or an exponent is kept as its
    literal text. *)

Module Json.

Definition dq : ascii := "034"%char.
Definition backslash : ascii := "092"%char.

Definition is_ws (c : ascii) : bool :=
  let n := nat_of_ascii c in
  ((n =? 32) || (n =? 9) || (n =? 10) || (n =? 13))%nat.

Fixpoint skip_ws (s : string) : string :=
  match s with
  | String c r => if is_ws c then skip_ws r else s
  | EmptyString => EmptyString
  end.

Definition hex_of (c : ascii) : option nat :=
  let n := nat_of_ascii c in
  if ((48 <=? n) && (n <=? 57))%nat then Some (n - 48)%nat
  else if ((65 <=? n) && (n <=? 70))%nat then Some (n - 55)%nat
  else if ((97 <=? n) && (n <=? 102))%nat then Some (n - 87)%nat
  else None.

(** The character of a one-letter escape. *)
Definition unescape (c : ascii) : option ascii :=
  if Ascii.eqb c dq then Some dq
  else if Ascii.eqb c backslash then Some backslash
  else if Ascii.eqb c "/" then Some "/"%char
  else if Ascii.eqb c "b" then Some "008"%char
  else if Ascii.eqb c "f" then Some "012"%char
  else if Ascii.eqb c "n" then Some "010"%char
  else if Ascii.eqb c "r" then Some "013"%char
  else if Ascii.eqb c "t" then Some "009"%char
  else None.

Definition cons_to (c : ascii) (r : option (string * string))
  : option (string * string) :=
  match r with
  | Some (body, rest) => Some (String c body, rest)
  | None => None
  end.

(** The body of a string, after its opening quote: the text and what
    follows the closing quote. *)
Fixpoint scan_string (s : string) : option (string * string) :=
  match s with
  | EmptyString => None
  | String c r =>
      if Ascii.eqb c dq then Some (EmptyString, r)
      else if Ascii.eqb c backslash then
        match r with
        | String "u" (String a (String b (String c1 (String d r')))) =>
            match hex_of a, hex_of b, hex_of c1, hex_of d with
            | Some 0%nat, Some 0%nat, Some h, Some l =>
                cons_to (ascii_of_nat (16 * h + l)) (scan_string r')
            | _, _, _, _ => None
            end
        | String e r' =>
            match unescape e with
            | Some c' => cons_to c' (scan_string r')
            | None => None
            end
        | EmptyString => None
        end
      else if (nat_of_ascii c <? 32)%nat then None
      else cons_to c (scan_string r)
  end.

(** The longest run of decimal digits at the head of [s]. *)
Fixpoint take_digits (s : string) : string * string :=
  match s with
  | String c r =>
      match Py.digit_of c with
      | Some _ => let '(d, rest) := take_digits r in (String c d, rest)
      | None => (EmptyString, s)
      end
  | EmptyString => (EmptyString, EmptyString)
  end.

Fixpoint Z_of_digits (s : string) (acc : Z) : Z :=
  match s with
  | String c r =>
      match Py.digit_of c with
      | Some d => Z_of_digits r (10 * acc + d)
      | None => acc
      end
  | EmptyString => acc
  end.

(** The integer part of a number: [0], or digits that do not start with
    [0]. *)
Definition int_part (s : string) : option (string * string) :=
  match s with
  | String "0" r => Some ("0", r)
  | _ =>
      match take_digits s with
      | (EmptyString, _) => None
      | (d, rest) => Some (d, rest)
      end
  end.

Definition frac_part (s : string) : string * string :=
  match s with
  | String "." r =>
      match take_digits r with
      | (EmptyString, _) => (EmptyString, s)
      | (d, rest) => (String "." d, rest)
      end
  | _ => (EmptyString, s)
  end.

Definition exp_digits (mark : string) (r s : string) : string * string :=
  match take_digits r with
  | (EmptyString, _) => (EmptyString, s)
  | (d, rest) => (mark +:+ d, rest)
  end.

Definition exp_part (s : string) : string * string :=
  match s with
  | String "e" (String "+" r) => exp_digits "e+" r s
  | String "e" (String "-" r) => exp_digits "e-" r s
  | String "E" (String "+" r) => exp_digits "E+" r s
  | String "E" (String "-" r) => exp_digits "E-" r s
  | String "e" r => exp_digits "e" r s
  | String "E" r => exp_digits "E" r s
  | _ => (EmptyString, s)
  end.

Definition unsigned_number (s : string) : option (bool * string * Z * string) :=
  match int_part s with
  | None => None
  | Some (i, r1) =>
      let '(f, r2) := frac_part r1 in
      let '(e, r3) := exp_part r2 in
      match f, e with
      | EmptyString, EmptyString => Some (true, i, Z_of_digits i 0, r3)
      | _, _ => Some (false, i +:+ f +:+ e, 0, r3)
      end
  end.

Definition number (s : string) : option (value * string) :=
  match s with
  | String "-" r =>
      match unsigned_number r with
      | Some (true, _, z, rest) => Some (VInt (- z), rest)
      | Some (false, lit, _, rest) => Some (VFloat ("-" +:+ lit), rest)
      | None => None
      end
  | _ =>
      match unsigned_number s with
      | Some (true, _, z, rest) => Some (VInt z, rest)
      | Some (false, lit, _, rest) => Some (VFloat lit, rest)
      | None => None
      end
  end.

(** [word] at the head of [s]: what follows it. *)
Fixpoint after (word s : string) : option string :=
  match word, s with
  | EmptyString, _ => Some s
  | String a w', String b s' => if Ascii.eqb a b then after w' s' else None
  | String _ _, EmptyString => None
  end.

Definition constant (s : string) : option (value * string) :=
  match after "null" s, after "true" s, after "false" s with
  | Some r, _, _ => Some (VNone, r)
  | _, Some r, _ => Some (VBool true, r)
  | _, _, Some r => Some (VBool false, r)
  | _, _, _ =>
      match after "NaN" s, after "Infinity" s, after "-Infinity" s with
      | Some r, _, _ => Some (VFloat "nan", r)
      | _, Some r, _ => Some (VFloat "inf", r)
      | _, _, Some r => Some (VFloat "-inf", r)
      | _, _, _ => number s
      end
  end.

(** A value at the head of [s]; the members of an object after its brace,
    at a key; the elements of an array after its bracket, at a value. *)
Fixpoint parse_value (fuel : nat) (s : string) : option (value * string) :=
  match fuel with
  | O => None
  | S f =>
      match s with
      | EmptyString => None
      | String c r =>
          if Ascii.eqb c dq then
            match scan_string r with
            | Some (t, rest) => Some (VStr t, rest)
            | None => None
            end
          else if Ascii.eqb c "{" then
            match skip_ws r with
            | String "}" rest => Some (VDict [], rest)
            | r1 =>
                match parse_members f r1 with
                | Some (kvs, rest) => Some (VDict kvs, rest)
                | None => None
                end
            end
          else if Ascii.eqb c "[" then
            match skip_ws r with
            | String "]" rest => Some (VList [], rest)
            | r1 =>
                match parse_elements f r1 with
                | Some (vs, rest) => Some (VList vs, rest)
                | None => None
                end
            end
          else constant s
      end
  end

with parse_members (fuel : nat) (s : string)
  : option (list (string * value) * string) :=
  match fuel with
  | O => None
  | S f =>
      match s with
      | String c r =>
          if Ascii.eqb c dq then
            match scan_string r with
            | Some (k, r1) =>
                match skip_ws r1 with
                | String ":" r2 =>
                    match parse_value f (skip_ws r2) with
                    | Some (v, r3) =>
                        match skip_ws r3 with
                        | String "," r4 =>
                            match parse_members f (skip_ws r4) with
                            | Some (kvs, r5) => Some ((k, v) :: kvs, r5)
                            | None => None
                            end
                        | String "}" r4 => Some ([(k, v)], r4)
                        | _ => None
                        end
                    | None => None
                    end
                | _ => None
                end
            | None => None
            end
          else None
      | EmptyString => None
      end
  end

with parse_elements (fuel : nat) (s : string) : option (list value * string) :=
  match fuel with
  | O => None
  | S f =>
      match parse_value f s with
      | Some (v, r1) =>
          match skip_ws r1 with
          | String "," r2 =>
              match parse_elements f (skip_ws r2) with
              | Some (vs, r3) => Some (v :: vs, r3)
              | None => None
              end
          | String "]" r2 => Some ([v], r2)
          | _ => None
          end
      | None => None
      end
  end.

(** [json.loads(s)]. *)
Definition loads (s : string) : exn + value :=
  match parse_value (S (String.length s)) (skip_ws s) with
  | Some (v, rest) =>
      match skip_ws rest with
      | EmptyString => inr v
      | _ => inl (Exn JSONDecodeError "Extra data")
      end
  | None => inl (Exn JSONDecodeError "Expecting value")
  end.

End Json.

(** The document ['{"topic": "T", "forumPost": "B"}']. *)
Definition q : string := String Json.dq EmptyString.

Definition content_TB : string :=
  "{" +:+ q +:+ "topic" +:+ q +:+ ": " +:+ q +:+ "T" +:+ q +:+ ", "
  +:+ q +:+ "forumPost" +:+ q +:+ ": " +:+ q +:+ "B" +:+ q +:+ "}".

Definition parsed_TB : value :=
  VDict [("topic", VStr "T"); ("forumPost", VStr "B")].

(** ** Concrete environments *)

Module Sample.

Definition settings : list (string * string) :=
  [("GENERATION_ENDPOINT", "https://gen.example/api");
   ("PLATFORM_POST_URL", "https://forum.example/latest");
   ("LOGIN_URL", "https://forum.example/login");
   ("EMAIL", "bot@example.org");
   ("PASSWORD", "secret")].

Definition ok_response : Response := mkResponse 200 (content_TB +:+ " ").

(** A site: its settings, how its waits end, and what its endpoint answers.
    No call raises and the browser holds one cookie. *)
Definition site (vars : list (string * string))
  (waits : list Event -> Wait -> exn + Element) (answer : exn + Response)
  : Env :=
  {| environ := list_to_map vars;
     json_loads := Json.loads;
     mkdtemp := fun _ => inr "/tmp/tmpab12";
     call := fun _ _ => None;
     until := waits;
     get_cookies := fun _ => inr [Whole (mkCookie "_t" "abc" "forum.example")];
     session_get := fun _ _ _ _ => answer;
     session_jar := fun _ jar _ _ => jar |}.

(** Every wait finds a fresh handle; no wait finds anything; every wait but
    the one for the login marker finds a handle. *)
Definition finds (h : list Event) (wt : Wait) : exn + Element :=
  inr (N.of_nat (List.length h)).

Definition finds_nothing (h : list Event) (wt : Wait) : exn + Element :=
  inl (Exn TimeoutException "Message: ").

Definition finds_no_marker (h : list Event) (wt : Wait) : exn + Element :=
  if String.eqb (w_locator wt) login_marker then finds_nothing h wt
  else finds h wt.

(** Every outside party cooperates and the endpoint answers with the
    document [content_TB]. *)
Definition calm (vars : list (string * string)) : Env :=
  site vars finds (inr ok_response).

(** The same, with another answer from the endpoint. *)
Definition answering (r : exn + Response) : Env := site settings finds r.

(** No element ever shows up. *)
Definition stuck (vars : list (string * string)) : Env :=
  site vars finds_nothing (inr ok_response).

(** The login page works but the credentials are refused: the marker never
    shows up. *)
Definition rejecting (vars : list (string * string)) : Env :=
  site vars finds_no_marker (inr ok_response).

Definition fresh : World := mkWorld [] ∅ [].

(** A world whose session already holds a cookie. *)
Definition logged_in : World :=
  mkWorld [] (jar_set (mkCookie "_t" "abc" "forum.example") ∅) [].

(** The world in which [main] finds itself once the poster is built. *)
Definition built (E : Env) : World := snd (init E fresh).

End Sample.

(** ** Vocabulary of the further properties *)

Module Trouble.

(** Chrome does not start. *)
Definition no_chrome : Env :=
  {| environ := list_to_map Sample.settings;
     json_loads := Json.loads;
     mkdtemp := fun _ => inr "/tmp/tmpab12";
     call := fun _ ev =>
               match ev with
               | EvChrome _ =>
                   Some (Exn WebDriverException "chrome not reachable")
               | _ => None
               end;
     until := Sample.finds;
     get_cookies := fun _ => inr [Whole (mkCookie "_t" "abc" "forum.example")];
     session_get := fun _ _ _ _ => inr Sample.ok_response;
     session_jar := fun _ jar _ _ => jar |}.

(** The site sets no cookie. *)
Definition cookieless : Env :=
  {| environ := list_to_map Sample.settings;
     json_loads := Json.loads;
     mkdtemp := fun _ => inr "/tmp/tmpab12";
     call := fun _ _ => None;
     until := Sample.finds;
     get_cookies := fun _ => inr [];
     session_get := fun _ _ _ _ => inr Sample.ok_response;
     session_jar := fun _ jar _ _ => jar |}.

(** A document whose fields are not strings:
    [{"topic": 7, "forumPost": ["a"]}]. *)
Definition odd_document : string :=
  "{" +:+ q +:+ "topic" +:+ q +:+ ": 7, " +:+ q +:+ "forumPost" +:+ q
  +:+ ": [" +:+ q +:+ "a" +:+ q +:+ "]}".

(** A literal of [n] digits. *)
Fixpoint ones (n : nat) : string :=
  match n with
  | O => EmptyString
  | S k => String "1" (ones k)
  end.

(** The browser returns three dicts; the second lacks [domain]. *)
Definition half_cookies : Env :=
  {| environ := list_to_map Sample.settings;
     json_loads := Json.loads;
     mkdtemp := fun _ => inr "/tmp/tmpab12";
     call := fun _ _ => None;
     until := Sample.finds;
     get_cookies :=
       fun _ => inr [Whole (mkCookie "_t" "abc" "forum.example");
                     Lacking "domain";
                     Whole (mkCookie "_s" "xyz" "forum.example")];
     session_get := fun _ _ _ _ => inr Sample.ok_response;
     session_jar := fun _ jar _ _ => jar |}.

(** A value in double quotes with an escaped quote inside: the seven
    characters quote, a, backslash, quote, b, quote. *)
Definition quoted_value : string :=
  q +:+ "a" +:+ String "092" EmptyString +:+ q +:+ "b" +:+ q.

(** The site sets a cookie with that value, and the endpoint another
    cookie. *)
Definition quoting : Env :=
  {| environ := list_to_map Sample.settings;
     json_loads := Json.loads;
     mkdtemp := fun _ => inr "/tmp/tmpab12";
     call := fun _ _ => None;
     until := Sample.finds;
     get_cookies :=
       fun _ => inr [Whole (mkCookie "_q" quoted_value "forum.example")];
     session_get := fun _ _ _ _ => inr Sample.ok_response;
     session_jar :=
       fun _ jar _ _ => <[("gen.example", "sid") := "1"]> jar |}.

End Trouble.

(** The entry of the jar a cookie is stored under. *)
Definition cookie_key (c : Cookie) : string * string :=
  (c_domain c, c_name c).

(** The jar after the loop [for cookie in cookies] of [login] has stored
    the cookies of [l]. *)
Definition jar_update (l : list Cookie) (jar : Jar) : Jar :=
  fold_left (fun j c => jar_set c j) l jar.

(** The cookies the loop stores from what the browser returned: those before
    the first dict that lacks a key; and that key, if there is one. *)
Fixpoint whole_prefix (l : list BrowserCookie) : list Cookie * option string :=
  match l with
  | [] => ([], None)
  | Whole c :: r => let '(p, k) := whole_prefix r in (c :: p, k)
  | Lacking k :: _ => ([], Some k)
  end.

(** The calls of a construction that succeeds. *)
Definition init_calls (temp_dir : string) : list Event :=
  [EvMkdtemp;
   EvChrome (chrome_arguments ++ ["--user-data-dir=" +:+ temp_dir]);
   EvSetPageLoadTimeout 30;
   EvSetScriptTimeout 30;
   EvImplicitlyWait 10].

(** The calls of [login] up to the wait for the marker, which ends with
    [marker]; a login that succeeds asks for the cookies next. *)
Definition login_steps (url email password : value)
  (user pass button : Element) (marker : option Element) : list Event :=
  [EvGet url;
   EvUntil (mkWait 10 visibility_of_element_located By_ID "login-account-name")
     (Some user);
   EvUntil
     (mkWait 10 visibility_of_element_located By_ID "login-account-password")
     (Some pass);
   EvUntil (mkWait 10 element_to_be_clickable By_ID "login-button")
     (Some button);
   EvSendKeys user email;
   EvSendKeys pass password;
   EvClick button;
   EvUntil marker_wait marker].

Definition login_calls (url email password : value)
  (user pass button marker : Element) : list Event :=
  login_steps url email password user pass button (Some marker)
  ++ [EvGetCookies].

(** The calls of [post_content_to_platform] that open the composer, and
    those that fill and submit it. *)
Definition composer_calls (url : value) (new_topic title : Element)
  : list Event :=
  [EvGet url;
   EvUntil (mkWait 10 element_to_be_clickable By_XPATH new_topic_xpath)
     (Some new_topic);
   EvClick new_topic;
   EvUntil (mkWait 10 visibility_of_element_located By_XPATH title_xpath)
     (Some title)].

Definition filling_calls (topic forumPost : value)
  (title category srfc body submit : Element) : list Event :=
  [EvClear title;
   EvSendKeys title topic;
   EvUntil (mkWait 10 visibility_of_element_located By_XPATH category_xpath)
     (Some category);
   EvClick category;
   EvUntil (mkWait 10 visibility_of_element_located By_XPATH option_xpath)
     (Some srfc);
   EvClick srfc;
   EvUntil (mkWait 300 visibility_of_element_located By_XPATH body_xpath)
     (Some body);
   EvClear body;
   EvSendKeys body forumPost;
   EvUntil (mkWait 10 element_to_be_clickable By_XPATH create_topic_xpath)
     (Some submit);
   EvClick submit].



(** The calls on the browser; the HTTP requests of a trace; what was typed
    into a page. *)
Definition is_browser (ev : Event) : bool :=
  match ev with
  | EvGet _ | EvUntil _ _ | EvSendKeys _ _ | EvClear _ | EvClick _
  | EvGetCookies => true
  | _ => false
  end.

Definition is_request (ev : Event) : bool :=
  match ev with EvHttpGet _ _ _ => true | _ => false end.

Definition requests (t : list Event) : list Event :=
  List.filter is_request t.

Definition is_typing (ev : Event) : bool :=
  match ev with EvSendKeys _ _ => true | _ => false end.

Definition typed (t : list Event) : list Event := List.filter is_typing t.

(** ** Reasoning about the program

    The steps of an operation are unfolded into the case analysis on what
    the outside answers, one call after the other. *)

Ltac reduce := cbv beta iota zeta; cbn [trace cookies logs fst snd].

Ltac unfold_program :=
  cbv beta iota zeta delta
    [bind try_except ret raise lift emit log enabled Exception
     do_call driver_get send_keys clear click wait_until driver_get_cookies
     http_get make_temp_dir time_sleep raise_for_status];
  cbn [trace cookies logs fst snd].

Ltac answer :=
  match goal with
  | H : forall h, exists e, until ?E h ?wt = inl e
    |- context [until ?E ?h ?wt] =>
      let e := fresh "e" in
      let He := fresh "He" in
      destruct (H h) as [e He]; rewrite He
  | H : forall h ev, call ?E h ev = None |- context [call ?E ?h ?ev] =>
      rewrite (H h ev)
  | |- context [call ?E ?h ?ev] => destruct (call E h ev) eqn:?
  | |- context [until ?E ?h ?wt] => destruct (until E h wt) eqn:?
  | |- context [get_cookies ?E ?h] => destruct (get_cookies E h) eqn:?
  | |- context [session_get ?E ?h ?j ?u ?t] =>
      destruct (session_get E h j u t) eqn:?
  | |- context [mkdtemp ?E ?h] => destruct (mkdtemp E h) eqn:?
  end; reduce.

(** The three outcomes of decoding a content and reading its two keys. *)
Ltac decode E content :=
  destruct (json_loads E content) as [bad|doc] eqn:Hdoc;
  [|destruct (getitem doc "topic") as [bad|topic] eqn:Htopic;
    [|destruct (getitem doc "forumPost") as [bad|forumPost] eqn:Hpost]].


Ltac browser_only :=
  intros Heq; injection Heq as <- <-; cbn [trace];
  eexists; split; [rewrite <- ?app_assoc; reflexivity|reflexivity].

Ltac nothing_typed :=
  intros Heq; injection Heq as <- <-; cbn [trace];
  unfold typed; rewrite <- ?app_assoc, ?List.filter_app;
  cbn [List.filter is_typing]; rewrite ?app_nil_r; reflexivity.

(** ** Facts about the string functions *)

Section StringFacts.

Lemma append_cons (c : ascii) (a b : string) :
  String c a +:+ b = String c (a +:+ b).
Proof. reflexivity. Qed.

Lemma append_empty_l (b : string) : EmptyString +:+ b = b.
Proof. reflexivity. Qed.

Lemma all_space_app (a b : string) :
  Py.all_space (a +:+ b) = Py.all_space a && Py.all_space b.
Proof.
  induction a as [|c a IH]; simpl; [reflexivity|].
  rewrite IH. apply andb_assoc.
Qed.

Lemma lstrip_split (s : string) :
  exists l, s = l +:+ Py.lstrip s /\ Py.all_space l = true.
Proof.
  induction s as [|c s [l [Hs Hl]]]; simpl.
  - exists EmptyString. split; reflexivity.
  - destruct (Py.isspace c) eqn:Hc.
    + exists (String c l). split.
      * rewrite append_cons. f_equal. exact Hs.
      * simpl. rewrite Hc, Hl. reflexivity.
    + exists EmptyString. split; reflexivity.
Qed.

Lemma lstrip_head (s : string) (c : ascii) (t : string) :
  Py.lstrip s = String c t -> Py.isspace c = false.
Proof.
  induction s as [|a s IH]; simpl; [discriminate|].
  destruct (Py.isspace a) eqn:Ha; [exact IH|].
  intros H. injection H as <- _. exact Ha.
Qed.

Lemma lstrip_empty (s : string) :
  Py.lstrip s = EmptyString <-> Py.all_space s = true.
Proof.
  induction s as [|c s IH]; simpl; [tauto|].
  destruct (Py.isspace c); simpl; [exact IH|].
  split; discriminate.
Qed.

Lemma rstrip_split (s : string) :
  exists r, s = Py.rstrip s +:+ r /\ Py.all_space r = true.
Proof.
  induction s as [|c s [r [Hs Hr]]]; simpl.
  - exists EmptyString. split; reflexivity.
  - destruct (Py.rstrip s) as [|a t] eqn:Ht.
    + rewrite append_empty_l in Hs. subst r. destruct (Py.isspace c) eqn:Hc.
      * exists (String c s). simpl. rewrite Hc, Hr. split; reflexivity.
      * exists s. split; [reflexivity|exact Hr].
    + exists r. split; [|exact Hr]. rewrite append_cons. f_equal. exact Hs.
Qed.

Lemma rstrip_empty (s : string) :
  Py.rstrip s = EmptyString <-> Py.all_space s = true.
Proof.
  induction s as [|c s IH]; simpl; [tauto|].
  destruct (Py.rstrip s) as [|a t] eqn:Ht.
  - destruct (Py.isspace c); simpl.
    + split; [intros _; apply IH; reflexivity|reflexivity].
    + split; discriminate.
  - split; [discriminate|].
    intros H. apply andb_prop in H as [_ H]. apply IH in H. discriminate.
Qed.

(** The first character survives [rstrip] when anything does. *)
Lemma rstrip_head (s : string) (c : ascii) (t : string) :
  Py.rstrip s = String c t -> exists t', s = String c t'.
Proof.
  destruct s as [|a s]; simpl; [discriminate|].
  destruct (Py.rstrip s); [destruct (Py.isspace a)|];
    intros H; try discriminate; injection H as <- _; eauto.
Qed.

Lemma rstrip_idem (s : string) : Py.rstrip (Py.rstrip s) = Py.rstrip s.
Proof.
  induction s as [|c s IH]; simpl; [reflexivity|].
  destruct (Py.rstrip s) as [|a t] eqn:Ht.
  - destruct (Py.isspace c) eqn:Hc; simpl; [reflexivity|].
    rewrite Hc. reflexivity.
  - change (Py.rstrip (String c (String a t)))
      with (match Py.rstrip (String a t) with
            | EmptyString =>
                if Py.isspace c then EmptyString else String c EmptyString
            | r' => String c r'
            end).
    rewrite IH. reflexivity.
Qed.

(** An all-white-space text, and only such a text, strips to nothing. *)
Lemma strip_empty (s : string) :
  Py.strip s = EmptyString <-> Py.all_space s = true.
Proof.
  unfold Py.strip. rewrite rstrip_empty.
  destruct (lstrip_split s) as [l [Hs Hl]].
  rewrite Hs at 2. rewrite all_space_app, Hl. simpl. tauto.
Qed.

(** What [strip] removes is white space on both sides, ... *)
Lemma strip_split (s : string) :
  exists l r,
    s = l +:+ Py.strip s +:+ r
    /\ Py.all_space l = true /\ Py.all_space r = true.
Proof.
  destruct (lstrip_split s) as [l [Hs Hl]].
  destruct (rstrip_split (Py.lstrip s)) as [r [Ht Hr]].
  exists l, r. unfold Py.strip. rewrite <- Ht. auto.
Qed.

(** ... and nothing is left to remove. *)
Lemma strip_head (s : string) (c : ascii) (t : string) :
  Py.strip s = String c t -> Py.isspace c = false.
Proof.
  unfold Py.strip. intros H.
  destruct (rstrip_head _ _ _ H) as [t' Ht'].
  exact (lstrip_head _ _ _ Ht').
Qed.

Lemma rstrip_ends (s : string) : Py.ends_with_space (Py.rstrip s) = false.
Proof.
  induction s as [|c s IH]; [reflexivity|]. cbn [Py.rstrip].
  destruct (Py.rstrip s) as [|a t] eqn:Ht.
  - destruct (Py.isspace c) eqn:Hc; [reflexivity|].
    cbn [Py.ends_with_space]. exact Hc.
  - exact IH.
Qed.

Lemma strip_starts (s : string) : Py.starts_with_space (Py.strip s) = false.
Proof.
  destruct (Py.strip s) as [|c t] eqn:Hs; [reflexivity|].
  exact (strip_head _ _ _ Hs).
Qed.

Lemma strip_ends (s : string) : Py.ends_with_space (Py.strip s) = false.
Proof. apply rstrip_ends. Qed.

Lemma strip_idem (s : string) : Py.strip (Py.strip s) = Py.strip s.
Proof.
  destruct (Py.strip s) as [|c t] eqn:Hs; [reflexivity|].
  pose proof (strip_head _ _ _ Hs) as Hc.
  unfold Py.strip at 1. simpl Py.lstrip. rewrite Hc.
  rewrite <- Hs. unfold Py.strip. apply rstrip_idem.
Qed.

Lemma truthy_str_false (s : string) :
  Py.truthy_str s = false <-> s = EmptyString.
Proof. destruct s; simpl; split; congruence. Qed.

Lemma int_empty : Py.int EmptyString = None.
Proof. reflexivity. Qed.

(** A string that [int] accepts is not empty, hence truthy. *)
Lemma int_truthy (s : string) (z : Z) :
  Py.int s = Some z -> Py.truthy_str s = true.
Proof. destruct s; [discriminate|reflexivity]. Qed.

(** [t in s], for the message of [_validate_env_vars]. *)
Lemma is_prefix_app (t r : string) : Py.is_prefix t (t +:+ r) = true.
Proof.
  induction t as [|c t IH]; simpl; [reflexivity|].
  rewrite Ascii.eqb_refl. exact IH.
Qed.

Lemma contains_prefix (t r : string) : Py.contains (t +:+ r) t = true.
Proof.
  destruct t; simpl.
  - destruct r; reflexivity.
  - rewrite Ascii.eqb_refl, is_prefix_app. reflexivity.
Qed.

Lemma contains_app_r (p s t : string) :
  Py.contains s t = true -> Py.contains (p +:+ s) t = true.
Proof.
  intros H. induction p as [|c p IH]; simpl; [exact H|].
  rewrite IH. apply orb_true_r.
Qed.

Lemma append_empty_r (t : string) : t +:+ EmptyString = t.
Proof.
  induction t as [|c t IH]; [reflexivity|].
  rewrite append_cons, IH. reflexivity.
Qed.

Lemma contains_self (t : string) : Py.contains t t = true.
Proof.
  rewrite <- (append_empty_r t) at 1. apply contains_prefix.
Qed.

Lemma join_contains (sep k : string) (l : list string) :
  In k l -> Py.contains (Py.join sep l) k = true.
Proof.
  induction l as [|x l IH]; [intros []|].
  intros [->|Hin].
  - destruct l; [apply contains_self|apply contains_prefix].
  - destruct l as [|y l]; [destruct Hin|].
    change (Py.join sep (x :: y :: l)) with (x +:+ sep +:+ Py.join sep (y :: l)).
    apply contains_app_r, contains_app_r, IH, Hin.
Qed.

End StringFacts.

Section Bootstrap.

Variable E : Env.

Lemma validate_missing (w : World) :
  List.filter (missing E) required_vars <> [] ->
  _validate_env_vars E w
  = (Raise (Exn ValueError
              ("Missing required environment variables: "
               +:+ Py.join ", " (List.filter (missing E) required_vars))), w).
Proof.
  unfold _validate_env_vars.
  destruct (List.filter (missing E) required_vars); [congruence|reflexivity].
Qed.

Lemma validate_complete (w : World) :
  List.filter (missing E) required_vars = [] ->
  _validate_env_vars E w = (Return tt, w).
Proof. unfold _validate_env_vars. intros ->. reflexivity. Qed.

(** C7.  When one or more of the five required keys is absent or empty,
    constructing the poster fails with a [ValueError] before anything else
    is done, and the message contains the name of every key that is absent
    or empty, not only of the first. *)
Theorem init_names_every_missing_key (w : World) :
  (exists k, In k required_vars /\ missing E k = true) ->
  exists msg,
    init E w = (Raise (Exn ValueError msg), w)
    /\ forall k, In k required_vars -> missing E k = true ->
                 Py.contains msg k = true.
Proof.
  intros [k0 [Hin0 Hm0]].
  assert (Hne : List.filter (missing E) required_vars <> []).
  { intros Hnil. assert (Hk : In k0 (List.filter (missing E) required_vars))
      by (apply filter_In; auto).
    rewrite Hnil in Hk. destruct Hk. }
  eexists. split.
  - unfold init, bind. rewrite (validate_missing w Hne). reflexivity.
  - intros k Hin Hm. apply contains_app_r, join_contains, filter_In. auto.
Qed.

End Bootstrap.

Section Fetch.

Variable E : Env.

Lemma fetch_content_error_status (w : World) (r : Response) :
  endpoint_answer E w = inr r -> 400 <= status_code r < 600 ->
  fst (fetch_content E w) = Return None.
Proof.
  unfold endpoint_answer, fetch_content. unfold_program. intros -> [Hlo Hhi].
  reduce. apply Z.leb_le in Hlo. apply Z.ltb_lt in Hhi. rewrite Hlo, Hhi.
  reflexivity.
Qed.

Lemma fetch_content_blank (w : World) (r : Response) :
  endpoint_answer E w = inr r -> ~ 400 <= status_code r < 600 ->
  Py.all_space (text r) = true ->
  fst (fetch_content E w) = Return None.
Proof.
  unfold endpoint_answer, fetch_content. unfold_program. intros -> Hst Hsp.
  reduce.
  destruct ((400 <=? status_code r) && (status_code r <? 600)) eqn:Hb.
  - apply andb_prop in Hb as [Hlo Hhi].
    apply Z.leb_le in Hlo. apply Z.ltb_lt in Hhi. tauto.
  - apply strip_empty in Hsp. rewrite Hsp. reflexivity.
Qed.

Lemma fetch_content_text (w : World) (r : Response) :
  endpoint_answer E w = inr r -> ~ 400 <= status_code r < 600 ->
  Py.all_space (text r) = false ->
  fst (fetch_content E w) = Return (Some (Py.strip (text r)))
  /\ Py.strip (text r) <> EmptyString.
Proof.
  unfold endpoint_answer, fetch_content. unfold_program. intros -> Hst Hsp.
  reduce.
  assert (Hne : Py.strip (text r) <> EmptyString).
  { intros Hs. apply strip_empty in Hs. congruence. }
  split; [|exact Hne].
  destruct ((400 <=? status_code r) && (status_code r <? 600)) eqn:Hb.
  - apply andb_prop in Hb as [Hlo Hhi].
    apply Z.leb_le in Hlo. apply Z.ltb_lt in Hhi. tauto.
  - destruct (Py.strip (text r)); [congruence|reflexivity].
Qed.

Lemma fetch_content_request_error (w : World) (e : exn) :
  endpoint_answer E w = inl e -> is_RequestException e = true ->
  fst (fetch_content E w) = Return None.
Proof.
  unfold endpoint_answer, fetch_content. unfold_program. intros -> ->.
  reflexivity.
Qed.

(** What the stripping of a body that is not all white space gives: the
    body is white space, the result, white space; the result is not empty
    and neither starts nor ends with white space. *)
Lemma strip_is_the_trimmed_body (body : string) :
  Py.all_space body = false ->
  exists l t,
    body = l +:+ Py.strip body +:+ t
    /\ Py.all_space l = true
    /\ Py.all_space t = true
    /\ Py.strip body <> EmptyString
    /\ Py.starts_with_space (Py.strip body) = false
    /\ Py.ends_with_space (Py.strip body) = false.
Proof.
  intros Hbody. destruct (strip_split body) as [l [t [Hsplit [Hl Ht]]]].
  exists l, t. split; [exact Hsplit|]. split; [exact Hl|]. split; [exact Ht|].
  split; [|split; [apply strip_starts|apply strip_ends]].
  intros Hs. apply strip_empty in Hs. congruence.
Qed.

(** C4.  [fetch_content] returns nothing when the response has a 4xx or 5xx
    status; returns nothing when the status is 200 and the body is empty or
    all white space; otherwise returns the body without the white space
    around it: the body is white space, then the content returned, then
    white space, and that content is not empty and has white space at
    neither end; and returns nothing, instead of raising, when the request
    fails with a [RequestException]. *)
Theorem fetch_content_cases (w : World) :
  (forall r, endpoint_answer E w = inr r -> 400 <= status_code r < 600 ->
             fst (fetch_content E w) = Return None)
  /\ (forall r, endpoint_answer E w = inr r -> status_code r = 200 ->
                Py.all_space (text r) = true ->
                fst (fetch_content E w) = Return None)
  /\ (forall r, endpoint_answer E w = inr r -> ~ 400 <= status_code r < 600 ->
                Py.all_space (text r) = false ->
                exists c l t,
                  fst (fetch_content E w) = Return (Some c)
                  /\ text r = l +:+ c +:+ t
                  /\ Py.all_space l = true
                  /\ Py.all_space t = true
                  /\ c <> EmptyString
                  /\ Py.starts_with_space c = false
                  /\ Py.ends_with_space c = false)
  /\ (forall e, endpoint_answer E w = inl e -> is_RequestException e = true ->
                fst (fetch_content E w) = Return None).
Proof.
  split; [|split; [|split]].
  - apply fetch_content_error_status.
  - intros r Hr Hst. apply fetch_content_blank; [exact Hr|lia].
  - intros r Hr Hst Hbody.
    destruct (fetch_content_text w r Hr Hst Hbody) as [Hres _].
    destruct (strip_is_the_trimmed_body _ Hbody) as [l [t Htrim]].
    exists (Py.strip (text r)), l, t. split; [exact Hres|exact Htrim].
  - apply fetch_content_request_error.
Qed.

(** Whatever the endpoint answers, a content that is returned is not
    empty. *)
Lemma fetch_content_nonempty (w w' : World) (c : string) :
  fetch_content E w = (Return (Some c), w') -> c <> EmptyString.
Proof.
  unfold fetch_content. unfold_program. answer.
  - destruct (is_RequestException _); reduce; discriminate.
  - destruct (_ && _); reduce;
      [destruct (is_RequestException _); reduce; discriminate|].
    destruct (Py.strip _) eqn:Hs; simpl; intros H; inversion H.
    discriminate.
Qed.

End Fetch.

Section Login.

Variable E : Env.

(** No exception leaves [login]: it returns a boolean in every
    environment. *)
Lemma login_returns (w : World) :
  exists b w', login E w = (Return b, w').
Proof.
  unfold login, try_except.
  match goal with |- context [?m w] =>
    match m with bind _ _ => destruct (m w) as [[b|e] w1] end end.
  - eauto.
  - unfold_program. eauto.
Qed.

(** C3.  When the wait for the post-login marker never succeeds, [login]
    returns false and leaves the cookie jar of the HTTP session as it was;
    the browser is not even asked for its cookies. *)
Theorem login_without_marker (w : World) :
  (forall h, exists e, until E h marker_wait = inl e) ->
  exists w' events,
    login E w = (Return false, w')
    /\ cookies w' = cookies w
    /\ trace w' = trace w ++ events
    /\ ~ In EvGetCookies events.
Proof.
  intros Hmarker. unfold marker_wait in Hmarker.
  unfold login. unfold_program.
  repeat (answer;
          try (eexists; eexists;
               split; [reflexivity|];
               split; [reflexivity|];
               split; [cbn [trace]; rewrite <- ?app_assoc; reflexivity|];
               simpl; intuition discriminate)).
Qed.

End Login.

Section Publisher.

Variable E : Env.

Lemma jar_truthy_empty : jar_truthy ∅ = false.
Proof. reflexivity. Qed.

Lemma jar_truthy_nonempty (jar : Jar) : jar <> ∅ -> jar_truthy jar = true.
Proof.
  intros Hne. unfold jar_truthy.
  destruct (size jar) eqn:Hsize; [|reflexivity].
  apply map_size_empty_iff in Hsize. contradiction.
Qed.

(** No exception leaves [post_content_to_platform]. *)
Lemma post_returns (content : string) (w : World) :
  exists b w', post_content_to_platform E content w = (Return b, w').
Proof.
  unfold post_content_to_platform.
  destruct (negb (jar_truthy (cookies w))).
  - unfold_program. eauto.
  - unfold try_except.
    match goal with |- context [?m w] =>
      match m with bind _ _ => destruct (m w) as [[b|e] w1] end end.
    + eauto.
    + unfold_program. eauto.
Qed.

(** C5.  With an empty cookie jar, [post_content_to_platform] returns false
    at once: the trace of calls is what it was, so the browser was neither
    navigated nor touched in any other way. *)
Theorem post_without_cookies (content : string) (w : World) :
  cookies w = ∅ ->
  exists w',
    post_content_to_platform E content w = (Return false, w')
    /\ trace w' = trace w
    /\ cookies w' = cookies w.
Proof.
  intros Hjar. unfold post_content_to_platform.
  replace (jar_truthy (cookies w)) with false
    by (rewrite Hjar; symmetry; apply jar_truthy_empty).
  unfold_program.
  eexists. split; [reflexivity|]. split; reflexivity.
Qed.

Lemma getitem_no_key (k : string) (v : value) :
  has_key k v = false -> exists e, getitem v k = inl e.
Proof.
  destruct v; simpl; eauto.
  destruct (dict_get k items); [discriminate|eauto].
Qed.

(** C6.  On malformed content [post_content_to_platform] returns false; no
    exception leaves the call. *)
Theorem post_malformed (content : string) (w : World) :
  malformed E content ->
  exists w', post_content_to_platform E content w = (Return false, w').
Proof.
  unfold malformed. intros Hbad. unfold post_content_to_platform.
  destruct (negb (jar_truthy (cookies w))); unfold_program;
    [eexists; reflexivity|].
  repeat (answer; try (eexists; reflexivity)).
  destruct (json_loads E content) as [bad|v]; reduce;
    [eexists; reflexivity|].
  destruct (getitem v "topic") as [bad|topic] eqn:Htopic; reduce;
    [eexists; reflexivity|].
  destruct Hbad as [Hbad|Hbad]; apply getitem_no_key in Hbad as [bad Hget].
  - congruence.
  - rewrite Hget. reduce. eexists; reflexivity.
Qed.

(** C2.  For the content [{"topic": "T", "forumPost": "B"}], with a session
    that holds cookies, and when every wait finds its element and no call on
    the browser raises, the calls made are exactly the listed ones: the
    title field is cleared and sent the string [T], later the body field is
    cleared and sent the string [B], and the click on the submit button
    comes last.  Nothing else is ever typed. *)
Theorem post_fills_title_then_body (w : World) :
  cookies w <> ∅ ->
  json_loads E content_TB = inr parsed_TB ->
  (forall h ev, call E h ev = None) ->
  (forall h wt, exists el, until E h wt = inr el) ->
  exists new_topic title category srfc body submit w',
    post_content_to_platform E content_TB w = (Return true, w')
    /\ trace w'
       = trace w ++
         [EvGet (of_opt (getenv E "PLATFORM_POST_URL"));
          EvUntil (mkWait 10 element_to_be_clickable By_XPATH new_topic_xpath)
            (Some new_topic);
          EvClick new_topic;
          EvUntil (mkWait 10 visibility_of_element_located By_XPATH title_xpath)
            (Some title);
          EvClear title;
          EvSendKeys title (VStr "T");
          EvUntil
            (mkWait 10 visibility_of_element_located By_XPATH category_xpath)
            (Some category);
          EvClick category;
          EvUntil (mkWait 10 visibility_of_element_located By_XPATH option_xpath)
            (Some srfc);
          EvClick srfc;
          EvUntil (mkWait 300 visibility_of_element_located By_XPATH body_xpath)
            (Some body);
          EvClear body;
          EvSendKeys body (VStr "B");
          EvUntil
            (mkWait 10 element_to_be_clickable By_XPATH create_topic_xpath)
            (Some submit);
          EvClick submit].
Proof.
  intros Hjar Hjson Hcall Hwait. unfold post_content_to_platform.
  rewrite (jar_truthy_nonempty _ Hjar), Hjson. unfold_program.
  repeat match goal with
         | |- context [call E ?h ?ev] => rewrite (Hcall h ev); reduce
         | |- context [until E ?h ?wt] =>
             let el := fresh "el" in
             let Hel := fresh "Hel" in
             destruct (Hwait h wt) as [el Hel]; rewrite Hel; reduce
         end.
  cbn [parsed_TB getitem dict_get String.eqb Ascii.eqb Bool.eqb]. reduce.
  repeat match goal with
         | |- context [call E ?h ?ev] => rewrite (Hcall h ev); reduce
         | |- context [until E ?h ?wt] =>
             let el := fresh "el" in
             let Hel := fresh "Hel" in
             destruct (Hwait h wt) as [el Hel]; rewrite Hel; reduce
         end.
  do 7 eexists. split; [reflexivity|].
  cbn [trace]. rewrite <- ?app_assoc. reflexivity.
Qed.

End Publisher.

Section Workflow.

Variable E : Env.

Lemma run_after_login_false (w w1 : World) :
  login E w = (Return false, w1) -> run E w = (Return false, w1).
Proof. intros H. unfold run, bind. rewrite H. reflexivity. Qed.

Lemma run_after_fetch (w w1 : World) :
  login E w = (Return true, w1) ->
  run E w
  = match fetch_content E w1 with
    | (Return (Some c), w2) =>
        if Py.truthy_str c then
          match post_content_to_platform E c w2 with
          | (Return b, w3) => (Return b, w3)
          | (Raise e, w3) => (Raise e, w3)
          end
        else (Return false, w2)
    | (Return None, w2) => (Return false, w2)
    | (Raise e, w2) => (Raise e, w2)
    end.
Proof.
  intros H. unfold run, bind. rewrite H. cbn [negb].
  destruct (fetch_content E w1) as [[[c|]|e] w2]; try reflexivity.
  destruct (Py.truthy_str c); [|reflexivity]. cbn [negb].
  destruct (post_content_to_platform E c w2) as [[[|]|e] w3]; reflexivity.
Qed.

(** C1.  [run] starts with [login].  If [login] returns false, [run]
    returns false in the world [login] left: nothing was fetched or posted.
    If it returns true, [fetch_content] runs next, in that world; without
    content [run] returns false in the world the fetch left: nothing was
    posted.  Only with content does [post_content_to_platform] run, on that
    content, and [run] returns what it returns.  So [run] returns true
    exactly when the three steps, chained in this order, all succeed. *)
Theorem run_short_circuits (w : World) :
  exists logged_in w1,
    login E w = (Return logged_in, w1)
    /\ (logged_in = false -> run E w = (Return false, w1))
    /\ (logged_in = true ->
        match fetch_content E w1 with
        | (Return None, w2) => run E w = (Return false, w2)
        | (Return (Some c), w2) =>
            exists posted w3,
              post_content_to_platform E c w2 = (Return posted, w3)
              /\ run E w = (Return posted, w3)
        | (Raise e, w2) => run E w = (Raise e, w2)
        end)
    /\ (forall w', run E w = (Return true, w') <->
          exists c w2,
            login E w = (Return true, w1)
            /\ fetch_content E w1 = (Return (Some c), w2)
            /\ post_content_to_platform E c w2 = (Return true, w')).
Proof.
  destruct (login_returns E w) as [logged_in [w1 Hlogin]].
  exists logged_in, w1. split; [exact Hlogin|].
  destruct logged_in.
  - pose proof (run_after_fetch w w1 Hlogin) as Hrun.
    destruct (fetch_content E w1) as [[[c|]|e] w2] eqn:Hfetch.
    + assert (Htruthy : Py.truthy_str c = true).
      { pose proof (fetch_content_nonempty E _ _ _ Hfetch).
        destruct c; [congruence|reflexivity]. }
      rewrite Htruthy in Hrun.
      destruct (post_returns E c w2) as [posted [w3 Hpost]].
      rewrite Hpost in Hrun.
      split; [discriminate|]. split; [intros _; eauto|].
      intros w'. rewrite Hrun. split.
      * intros Heq. injection Heq as -> ->. eauto.
      * intros [c' [w2' [_ [Heq Hpost']]]]. injection Heq as <- <-.
        rewrite Hpost in Hpost'. exact Hpost'.
    + split; [discriminate|]. split; [intros _; exact Hrun|].
      intros w'. rewrite Hrun. split; [discriminate|].
      intros [c' [w2' [_ [Heq _]]]]. discriminate.
    + split; [discriminate|]. split; [intros _; exact Hrun|].
      intros w'. rewrite Hrun. split; [discriminate|].
      intros [c' [w2' [_ [Heq _]]]]. discriminate.
  - pose proof (run_after_login_false w w1 Hlogin) as Hrun.
    split; [intros _; exact Hrun|]. split; [discriminate|].
    intros w'. rewrite Hrun. split; [discriminate|].
    intros [c [w2 [Heq _]]]. congruence.
Qed.

(** ** The driver *)

(** One pass through the [try] block never raises: it leaves the world the
    run left, with one more line in the log. *)
Lemma cycle_returns (w : World) :
  exists r w1 line,
    run E w = (r, w1)
    /\ cycle E w
       = (Return tt, mkWorld (trace w1) (cookies w1) (logs w1 ++ [line])).
Proof.
  unfold cycle, try_except, bind.
  destruct (run E w) as [[[|]|e] w1]; unfold_program;
    do 3 eexists; split; reflexivity.
Qed.






(** C9.  With [POSTING_INTERVAL] unset, the process does one thing after
    the poster is built: it invokes [run] once, adds one line to the log
    whether [run] returned true, returned false or raised, and calls
    [exit(0)]. *)
Theorem single_run_exits_zero (w0 w : World) (n : nat) :
  getenv E "POSTING_INTERVAL" = None ->
  init E w0 = (Return tt, w) ->
  exists r w1 line,
    run E w = (r, w1)
    /\ main E n w0
       = (Some (SystemExit 0),
          mkWorld (trace w1) (cookies w1) (logs w1 ++ [line])).
Proof.
  intros Henv Hinit.
  destruct (cycle_returns w) as [r [w1 [line [Hrun Hcycle]]]].
  exists r, w1, line. split; [exact Hrun|].
  unfold main, drive, run_once. rewrite Hinit, Henv, Hcycle. reflexivity.
Qed.

(** C10, as amended.  With [POSTING_INTERVAL] set to a string that is not
    empty and that [int] rejects, [main] ends with an uncaught [ValueError]
    in the world the construction of the poster left: no cycle ran, so
    nothing was logged in, fetched or posted. *)
Theorem bad_interval_raises (w0 w : World) (s : string) (n : nat) :
  getenv E "POSTING_INTERVAL" = Some s ->
  s <> EmptyString ->
  Py.int s = None ->
  init E w0 = (Return tt, w) ->
  exists msg, main E n w0 = (Some (Uncaught (Exn ValueError msg)), w).
Proof.
  intros Henv Hne Hint Hinit. unfold main, drive.
  rewrite Hinit, Henv, Hint.
  destruct s; [congruence|]. cbn [Py.truthy_str]. eauto.
Qed.

End Workflow.

(** ** The properties at concrete environments *)

Section Instances.

Import Sample.

(** [EMAIL] is absent and [PASSWORD] is empty: both are named. *)
Lemma init_names_every_missing_key_witness :
  exists msg,
    init (calm [("GENERATION_ENDPOINT", "https://gen.example/api");
                ("PLATFORM_POST_URL", "https://forum.example/latest");
                ("LOGIN_URL", "https://forum.example/login");
                ("PASSWORD", EmptyString)]) fresh
    = (Raise (Exn ValueError msg), fresh)
    /\ forall k, In k required_vars ->
         missing (calm [("GENERATION_ENDPOINT", "https://gen.example/api");
                        ("PLATFORM_POST_URL", "https://forum.example/latest");
                        ("LOGIN_URL", "https://forum.example/login");
                        ("PASSWORD", EmptyString)]) k = true ->
         Py.contains msg k = true.
Proof.
  apply init_names_every_missing_key.
  exists "EMAIL". split; [simpl; tauto|vm_compute; reflexivity].
Defined.

(** A 503, a blank body, a padded document and a refused connection. *)
Lemma fetch_content_cases_witness :
  fst (fetch_content (answering (inr (mkResponse 503 "busy"))) fresh)
  = Return None
  /\ fst (fetch_content (answering (inr (mkResponse 200 "   "))) fresh)
     = Return None
  /\ (exists c l t,
        fst (fetch_content (answering (inr (mkResponse 200 "  {} "))) fresh)
        = Return (Some c)
        /\ "  {} " = l +:+ c +:+ t
        /\ Py.all_space l = true
        /\ Py.all_space t = true
        /\ c <> EmptyString
        /\ Py.starts_with_space c = false
        /\ Py.ends_with_space c = false)
  /\ fst (fetch_content
            (answering (inl (Exn ConnectionError "refused"))) fresh)
     = Return None.
Proof.
  split; [|split; [|split]].
  - apply (proj1 (fetch_content_cases
                    (answering (inr (mkResponse 503 "busy"))) fresh)
             (mkResponse 503 "busy")); [reflexivity|simpl; lia].
  - apply (proj1 (proj2 (fetch_content_cases
                           (answering (inr (mkResponse 200 "   "))) fresh))
             (mkResponse 200 "   ")); reflexivity.
  - apply (proj1 (proj2 (proj2 (fetch_content_cases
                                  (answering (inr (mkResponse 200 "  {} ")))
                                  fresh)))
             (mkResponse 200 "  {} ")); [reflexivity|simpl; lia|reflexivity].
  - apply (proj2 (proj2 (proj2 (fetch_content_cases
                                  (answering
                                     (inl (Exn ConnectionError "refused")))
                                  fresh)))
             (Exn ConnectionError "refused")); reflexivity.
Defined.

(** The padded document, evaluated: the two spaces before it and the one
    after it are gone. *)
Example fetch_content_trims :
  fst (fetch_content (answering (inr (mkResponse 200 "  {} "))) fresh)
  = Return (Some "{}").
Proof. vm_compute. reflexivity. Qed.

(** The credentials are refused: the login page is driven to the end, the
    marker does not come, and the jar stays empty. *)
Lemma login_without_marker_witness :
  exists w' events,
    login (rejecting settings) fresh = (Return false, w')
    /\ cookies w' = cookies fresh
    /\ trace w' = trace fresh ++ events
    /\ ~ In EvGetCookies events.
Proof.
  apply login_without_marker.
  intros h. eexists. reflexivity.
Defined.

Lemma post_without_cookies_witness :
  exists w',
    post_content_to_platform (calm settings) content_TB fresh
    = (Return false, w')
    /\ trace w' = trace fresh
    /\ cookies w' = cookies fresh.
Proof. apply post_without_cookies. reflexivity. Defined.

(** A document without [forumPost], in a session that holds a cookie. *)
Lemma post_malformed_witness :
  exists w',
    post_content_to_platform (calm settings)
      ("{" +:+ q +:+ "topic" +:+ q +:+ ": " +:+ q +:+ "T" +:+ q +:+ "}")
      logged_in
    = (Return false, w').
Proof.
  apply post_malformed. unfold malformed. vm_compute. right. reflexivity.
Defined.

Lemma post_fills_title_then_body_witness :
  exists new_topic title category srfc body submit w',
    post_content_to_platform (calm settings) content_TB logged_in
    = (Return true, w')
    /\ trace w'
       = trace logged_in ++
         [EvGet (of_opt (getenv (calm settings) "PLATFORM_POST_URL"));
          EvUntil (mkWait 10 element_to_be_clickable By_XPATH new_topic_xpath)
            (Some new_topic);
          EvClick new_topic;
          EvUntil (mkWait 10 visibility_of_element_located By_XPATH title_xpath)
            (Some title);
          EvClear title;
          EvSendKeys title (VStr "T");
          EvUntil
            (mkWait 10 visibility_of_element_located By_XPATH category_xpath)
            (Some category);
          EvClick category;
          EvUntil (mkWait 10 visibility_of_element_located By_XPATH option_xpath)
            (Some srfc);
          EvClick srfc;
          EvUntil (mkWait 300 visibility_of_element_located By_XPATH body_xpath)
            (Some body);
          EvClear body;
          EvSendKeys body (VStr "B");
          EvUntil
            (mkWait 10 element_to_be_clickable By_XPATH create_topic_xpath)
            (Some submit);
          EvClick submit].
Proof.
  apply post_fills_title_then_body.
  - apply insert_non_empty.
  - vm_compute. reflexivity.
  - intros h ev. reflexivity.
  - intros h wt. eexists. reflexivity.
Defined.



Lemma single_run_exits_zero_witness :
  exists r w1 line,
    run (stuck settings) (built (stuck settings)) = (r, w1)
    /\ main (stuck settings) 0 fresh
       = (Some (SystemExit 0),
          mkWorld (trace w1) (cookies w1) (logs w1 ++ [line])).
Proof.
  apply single_run_exits_zero.
  - vm_compute. reflexivity.
  - vm_compute. reflexivity.
Defined.

Lemma bad_interval_raises_witness :
  exists msg,
    main (calm (("POSTING_INTERVAL", "six") :: settings)) 1 fresh
    = (Some (Uncaught (Exn ValueError msg)),
       built (calm (("POSTING_INTERVAL", "six") :: settings))).
Proof.
  apply (bad_interval_raises _ fresh _ "six").
  - vm_compute. reflexivity.
  - discriminate.
  - vm_compute. reflexivity.
  - vm_compute. reflexivity.
Defined.

(** What [int] takes for an interval: white space around the literal, but
    not the separators 28 to 31; at most 4300 digits. *)
Example int_of_interval :
  Py.int " 6 " = Some 6
  /\ Py.int (String "160" "6") = Some 6
  /\ Py.int (String "031" "6") = None
  /\ Py.int (String "030" "-3") = None
  /\ Py.int "1_000" = Some 1000
  /\ Py.int "1__0" = None
  /\ Py.int "+ 6" = None
  /\ Py.int (Trouble.ones 4301) = None
  /\ Py.int (Trouble.ones 4300) <> None.
Proof.
  repeat (split; [vm_compute; reflexivity|]). vm_compute. discriminate.
Qed.

(** The longest interval the loop accepts, and the first it does not. *)
Example interval_bounds :
  fst (main (stuck (("POSTING_INTERVAL", "2562047") :: settings)) 2 fresh)
  = None
  /\ fst (main (stuck (("POSTING_INTERVAL", "2562048") :: settings)) 2 fresh)
     = Some (Uncaught
               (Exn OverflowError
                  "timestamp too large to convert to C _PyTime_t")).
Proof. split; vm_compute; reflexivity. Qed.

(** [POSTING_INTERVAL] set to the empty string: a value [int] rejects, and
    yet no [ValueError]: the poster is built, one cycle runs (the login page
    is opened, the topic is submitted) and the process exits with status
    0. *)
Lemma empty_interval_runs_once :
  getenv (calm (("POSTING_INTERVAL", EmptyString) :: settings))
    "POSTING_INTERVAL" = Some EmptyString
  /\ Py.int EmptyString = None
  /\ fst (init (calm (("POSTING_INTERVAL", EmptyString) :: settings)) fresh)
     = Return tt
  /\ fst (main (calm (("POSTING_INTERVAL", EmptyString) :: settings)) 1 fresh)
     = Some (SystemExit 0)
  /\ In (EvGet (VStr "https://forum.example/login"))
       (trace
          (snd (main (calm (("POSTING_INTERVAL", EmptyString) :: settings))
                  1 fresh))).
Proof.
  split; [|split; [|split; [|split]]]; try (vm_compute; reflexivity).
  vm_compute. tauto.
Defined.

(** A full cycle on a cooperative site. *)
Example calm_run_succeeds : fst (run (calm settings) fresh) = Return true.
Proof. vm_compute. reflexivity. Qed.

End Instances.

(** ** Further properties: construction *)

Section MoreBootstrap.

Variable E : Env.

Lemma filter_missing_nil :
  List.filter (missing E) required_vars = []
  <-> forall k, In k required_vars -> missing E k = false.
Proof.
  split.
  - intros Hnil k Hin. destruct (missing E k) eqn:Hk; [|reflexivity].
    assert (Hf : In k (List.filter (missing E) required_vars))
      by (apply filter_In; auto).
    rewrite Hnil in Hf. destruct Hf.
  - intros Hall. destruct (List.filter (missing E) required_vars) as [|k l] eqn:Hf;
      [reflexivity|].
    assert (Hin : In k (List.filter (missing E) required_vars))
      by (rewrite Hf; left; reflexivity).
    apply filter_In in Hin as [Hin Hk]. rewrite (Hall k Hin) in Hk.
    discriminate.
Qed.

Lemma missing_false (k : string) :
  missing E k = false <-> exists s, getenv E k = Some s /\ s <> EmptyString.
Proof.
  unfold missing. destruct (getenv E k) as [[|c s]|]; simpl; split;
    try discriminate; try (intros [s' [Hs Hne]]; congruence).
  intros _. eexists. split; [reflexivity|discriminate].
Qed.

(** The validation passes exactly when each of the five required keys is
    set to a string that is not empty; it then leaves the world as it
    was. *)
Theorem validate_iff_complete (w : World) :
  _validate_env_vars E w = (Return tt, w)
  <-> forall k, In k required_vars ->
        exists s, getenv E k = Some s /\ s <> EmptyString.
Proof.
  split.
  - intros Hok k Hin. apply missing_false.
    destruct (List.filter (missing E) required_vars) as [|k' l] eqn:Hf.
    + apply filter_missing_nil; assumption.
    + rewrite validate_missing in Hok by (rewrite Hf; discriminate).
      discriminate.
  - intros Hall. apply validate_complete, filter_missing_nil.
    intros k Hin. apply missing_false, Hall, Hin.
Qed.

(** The message of a failed validation names the required keys that are
    absent or empty and no other required key. *)
Theorem validate_names_exactly_missing (w w' : World) (msg : string) :
  _validate_env_vars E w = (Raise (Exn ValueError msg), w') ->
  forall k, In k required_vars ->
    (Py.contains msg k = true <-> missing E k = true).
Proof.
  unfold _validate_env_vars. cbn [List.filter required_vars].
  destruct (missing E "GENERATION_ENDPOINT") eqn:H1;
    destruct (missing E "PLATFORM_POST_URL") eqn:H2;
    destruct (missing E "LOGIN_URL") eqn:H3;
    destruct (missing E "EMAIL") eqn:H4;
    destruct (missing E "PASSWORD") eqn:H5;
    unfold raise, ret; intros Heq; try discriminate Heq;
    injection Heq as <- _;
    intros k [<-|[<-|[<-|[<-|[<-|[]]]]]];
    match goal with
    | H : missing E ?k = ?b |- _ <-> missing E ?k = true =>
        rewrite H; vm_compute; split; congruence
    end.
Qed.

Lemma validated (w : World) :
  (forall k, In k required_vars -> missing E k = false) ->
  _validate_env_vars E w = (Return tt, w).
Proof. intros H. apply validate_complete, filter_missing_nil, H. Qed.

(** A construction that meets no obstacle makes five calls, in this order:
    the temporary directory, a headless Chrome on that directory, the two
    timeouts of 30 seconds and the implicit wait of 10; and it leaves a
    session whose jar is empty. *)
Theorem init_builds_poster (w : World) (temp_dir : string) :
  (forall k, In k required_vars -> missing E k = false) ->
  mkdtemp E (trace w) = inr temp_dir ->
  (forall h ev, call E h ev = None) ->
  init E w
  = (Return tt, mkWorld (trace w ++ init_calls temp_dir) ∅ (logs w)).
Proof.
  intros Hvars Hdir Hcall. unfold init.
  unfold bind at 1. rewrite (validated w Hvars).
  unfold_program. rewrite Hdir. reduce.
  rewrite !Hcall. reduce. unfold new_session. cbn [trace logs].
  rewrite <- !app_assoc. reflexivity.
Qed.

(** When Chrome does not start, the error is logged and raised again: the
    timeouts are not set and no session is created. *)
Theorem init_launch_failure (w : World) (temp_dir : string) (e : exn) :
  (forall k, In k required_vars -> missing E k = false) ->
  mkdtemp E (trace w) = inr temp_dir ->
  call E (trace w ++ [EvMkdtemp])
    (EvChrome (chrome_arguments ++ ["--user-data-dir=" +:+ temp_dir]))
  = Some e ->
  init E w
  = (Raise e,
     mkWorld
       (trace w ++
        [EvMkdtemp;
         EvChrome (chrome_arguments ++ ["--user-data-dir=" +:+ temp_dir])])
       (cookies w)
       (logs w ++
        [mkLog ERROR [Txt "Failed to initialize Chrome driver: "; Err e]])).
Proof.
  intros Hvars Hdir Hcall. unfold init.
  unfold bind at 1. rewrite (validated w Hvars).
  unfold_program. rewrite Hdir. reduce. rewrite Hcall. reduce.
  rewrite <- !app_assoc. reflexivity.
Qed.

(** [find_element_safely] is safe against two classes only: a wait that
    ends in [TimeoutException] or [NoSuchElementException] gives [None] and
    an error line; any other exception of the wait leaves the call. *)
Theorem find_element_safely_raises
  (b : By) (v : string) (timeout : Z) (w w' : World) (e : exn) :
  find_element_safely E b v timeout w = (Raise e, w')
  <-> until E (trace w) (mkWait timeout visibility_of_element_located b v)
      = inl e
      /\ is_wait_failure e = false
      /\ w' = mkWorld
                (trace w ++
                 [EvUntil (mkWait timeout visibility_of_element_located b v)
                    None])
                (cookies w) (logs w).
Proof.
  unfold find_element_safely. unfold_program.
  destruct (until E (trace w) _) as [e'|el]; reduce.
  - destruct (is_wait_failure e') eqn:Hf; reduce.
    + split; [discriminate|]. intros [Heq [Hnf _]]. congruence.
    + split.
      * intros Heq. injection Heq as -> <-. auto.
      * intros [Heq [_ ->]]. injection Heq as ->. reflexivity.
  - split; [discriminate|]. intros [Heq _]. discriminate.
Qed.

End MoreBootstrap.

(** ** Further properties: the cookie jar and [login] *)

Section MoreLogin.

Variable E : Env.

Lemma whole_prefix_all (l : list BrowserCookie) :
  snd (whole_prefix l) = None -> l = List.map Whole (fst (whole_prefix l)).
Proof.
  induction l as [|[c|k] l IH]; cbn [whole_prefix]; [reflexivity| |discriminate].
  destruct (whole_prefix l) as [p k]. cbn [fst snd List.map] in *.
  intros Hk. rewrite <- IH by exact Hk. reflexivity.
Qed.

Lemma whole_prefix_stops (l : list BrowserCookie) (k : string) :
  snd (whole_prefix l) = Some k ->
  exists rest, l = List.map Whole (fst (whole_prefix l)) ++ Lacking k :: rest.
Proof.
  induction l as [|[c|k'] l IH]; cbn [whole_prefix]; [discriminate| |].
  - destruct (whole_prefix l) as [p k0]. cbn [fst snd List.map] in *.
    intros Hk. destruct (IH Hk) as [rest Hrest]. exists rest.
    rewrite Hrest at 1. reflexivity.
  - cbn [fst snd List.map]. intros Hk. injection Hk as ->. exists l.
    reflexivity.
Qed.

(** The loop of [login]: the cookies before the first dict that lacks a
    key are stored, and that key is the [KeyError] that ends the loop. *)
Lemma for_each_copy_cookie (l : list BrowserCookie) (w : World) :
  for_each l copy_cookie w
  = (match snd (whole_prefix l) with
     | None => Return tt
     | Some k => Raise (Exn KeyError ("'" +:+ k +:+ "'"))
     end,
     mkWorld (trace w) (jar_update (fst (whole_prefix l)) (cookies w))
       (logs w)).
Proof.
  revert w. induction l as [|[c|k] l IH]; intros w.
  - destruct w. reflexivity.
  - cbn [for_each whole_prefix]. unfold bind, copy_cookie, set_cookie at 1.
    rewrite IH. destruct (whole_prefix l) as [p k']. reflexivity.
  - cbn [for_each whole_prefix]. unfold bind, copy_cookie, raise.
    destruct w. reflexivity.
Qed.

Lemma jar_update_other (l : list Cookie) (jar : Jar) (k : string * string) :
  (forall c, In c l -> cookie_key c <> k) ->
  jar_update l jar !! k = jar !! k.
Proof.
  revert jar. induction l as [|c l IH]; intros jar Hk; [reflexivity|].
  cbn [jar_update fold_left]. fold (jar_update l (jar_set c jar)).
  rewrite IH by (intros c' Hin; apply Hk; right; exact Hin).
  unfold jar_set. apply lookup_insert_ne. apply Hk. left. reflexivity.
Qed.

Lemma jar_update_bound (l : list Cookie) (jar : Jar) (k : string * string) :
  is_Some (jar !! k) -> is_Some (jar_update l jar !! k).
Proof.
  revert jar. induction l as [|c l IH]; intros jar Hk; [exact Hk|].
  cbn [jar_update fold_left]. fold (jar_update l (jar_set c jar)).
  apply IH. unfold jar_set.
  destruct (decide ((c_domain c, c_name c) = k)) as [<-|Hne].
  - rewrite lookup_insert_eq. eauto.
  - rewrite lookup_insert_ne by exact Hne. exact Hk.
Qed.

(** Every cookie of the list ends up bound in the jar. *)
Lemma jar_update_in (l : list Cookie) (jar : Jar) (c : Cookie) :
  In c l -> is_Some (jar_update l jar !! cookie_key c).
Proof.
  revert jar. induction l as [|c' l IH]; intros jar Hin; [destruct Hin|].
  cbn [jar_update fold_left]. fold (jar_update l (jar_set c' jar)).
  destruct Hin as [->|Hin]; [|apply IH, Hin].
  apply jar_update_bound. unfold jar_set, cookie_key.
  rewrite lookup_insert_eq. eauto.
Qed.

(** With one cookie for each domain and name, each is bound to the value
    the jar stores for it. *)
Lemma jar_update_value (l : list Cookie) (jar : Jar) (c : Cookie) :
  List.NoDup (List.map cookie_key l) -> In c l ->
  jar_update l jar !! cookie_key c = Some (stored_value (c_value c)).
Proof.
  revert jar. induction l as [|c' l IH]; intros jar Hnd Hin; [destruct Hin|].
  cbn [jar_update fold_left]. fold (jar_update l (jar_set c' jar)).
  cbn [List.map] in Hnd. apply List.NoDup_cons_iff in Hnd as [Hfresh Hnd].
  destruct Hin as [->|Hin]; [|apply IH; assumption].
  rewrite jar_update_other.
  - unfold jar_set, cookie_key. apply lookup_insert_eq.
  - intros c' Hin Heq. apply Hfresh. rewrite <- Heq.
    apply List.in_map, Hin.
Qed.

Lemma jar_update_nonempty (l : list Cookie) (jar : Jar) (c : Cookie) :
  In c l -> jar_update l jar <> ∅.
Proof.
  intros Hin Hempty. destruct (jar_update_in l jar c Hin) as [v Hv].
  rewrite Hempty, lookup_empty in Hv. discriminate.
Qed.

(** A value without a double quote at both ends is stored as it is. *)
Lemma stored_value_plain (v : string) :
  starts_with_quote v = false -> stored_value v = v.
Proof. unfold stored_value. intros ->. reflexivity. Qed.

(** What [login] does to the jar: nothing; or, the marker found, the cookies
    the browser returned are stored, all of them when [login] returns true,
    those before the first dict that lacks a key when that dict makes it
    return false. *)
Lemma login_jar (w w' : World) (r : result bool) :
  login E w = (r, w') ->
  (r <> Return true /\ cookies w' = cookies w)
  \/ (exists h l,
        get_cookies E h = inr l
        /\ cookies w' = jar_update (fst (whole_prefix l)) (cookies w)
        /\ match snd (whole_prefix l) with
           | None => r = Return true
           | Some _ => r = Return false
           end).
Proof.
  unfold login. unfold_program.
  repeat (answer;
          try (intros Heq; injection Heq as <- <-; left;
               split; [discriminate|reflexivity])).
  rewrite for_each_copy_cookie. reduce.
  match goal with H : get_cookies E ?h = inr ?l |- _ =>
    destruct (whole_prefix l) as [p [k|]] eqn:Hp; reduce;
    intros Heq; injection Heq as <- <-; right; exists h, l; rewrite Hp;
    (split; [exact H|split; reflexivity])
  end.
Qed.

(** [login] returns true only after the whole page was driven: the three
    fields were found, [EMAIL] was typed into the first and [PASSWORD] into
    the second before the click, the marker was found, and the cookies the
    browser then returned, each with its three keys, were all stored into
    the jar. *)
Theorem login_true_only_with_marker (w w' : World) :
  login E w = (Return true, w') ->
  exists user pass button marker l,
    trace w'
    = trace w ++
      login_calls (of_opt (getenv E "LOGIN_URL")) (of_opt (getenv E "EMAIL"))
        (of_opt (getenv E "PASSWORD")) user pass button marker
    /\ get_cookies E
         (trace w ++
          login_steps (of_opt (getenv E "LOGIN_URL"))
            (of_opt (getenv E "EMAIL")) (of_opt (getenv E "PASSWORD"))
            user pass button (Some marker))
       = inr (List.map Whole l)
    /\ cookies w' = jar_update l (cookies w).
Proof.
  unfold login. unfold_program.
  repeat (answer; try (intros Heq; discriminate Heq)).
  rewrite for_each_copy_cookie. reduce.
  match goal with H : get_cookies E ?h = inr ?l |- _ =>
    pose proof (whole_prefix_all l) as Hall;
    destruct (whole_prefix l) as [p [k|]]; reduce;
    [intros Heq; discriminate Heq|];
    cbn [fst snd] in Hall; rewrite (Hall eq_refl) in H
  end.
  intros Heq; injection Heq as <-.
  do 4 eexists. exists p. cbn [trace cookies].
  split; [|split; [|reflexivity]].
  - unfold login_calls, login_steps, marker_wait.
    rewrite <- !app_assoc. reflexivity.
  - unfold login_steps, marker_wait.
    match goal with H : get_cookies E ?h = inr _ |- _ =>
      rewrite <- H; f_equal end.
    rewrite <- !app_assoc. reflexivity.
Qed.

(** After a login that returned true, every cookie the browser returned to
    it is in the jar under its domain and name; when no two of them share a
    domain and name, each is bound to its value as the jar stores it, that
    is without the escaped quotes of a value in double quotes; the entries
    the browser did not return are what they were. *)
Theorem login_copies_every_cookie (w w' : World) :
  login E w = (Return true, w') ->
  exists user pass button marker l,
    get_cookies E
      (trace w ++
       login_steps (of_opt (getenv E "LOGIN_URL"))
         (of_opt (getenv E "EMAIL")) (of_opt (getenv E "PASSWORD"))
         user pass button (Some marker))
    = inr (List.map Whole l)
    /\ (forall c, In c l -> is_Some (cookies w' !! cookie_key c))
    /\ (List.NoDup (List.map cookie_key l) ->
        forall c, In c l ->
          cookies w' !! cookie_key c = Some (stored_value (c_value c)))
    /\ (forall k, (forall c, In c l -> cookie_key c <> k) ->
                  cookies w' !! k = cookies w !! k).
Proof.
  unfold login. unfold_program.
  repeat (answer; try (intros Heq; discriminate Heq)).
  rewrite for_each_copy_cookie. reduce.
  match goal with H : get_cookies E ?h = inr ?l |- _ =>
    pose proof (whole_prefix_all l) as Hall;
    destruct (whole_prefix l) as [p [k|]]; reduce;
    [intros Heq; discriminate Heq|];
    cbn [fst snd] in Hall; rewrite (Hall eq_refl) in H
  end.
  intros Heq; injection Heq as <-.
  do 4 eexists. exists p. cbn [trace cookies].
  split; [|split; [|split]].
  - unfold login_steps, marker_wait.
    match goal with H : get_cookies E ?h = inr _ |- _ =>
      rewrite <- H; f_equal end.
    rewrite <- !app_assoc. reflexivity.
  - intros c. apply jar_update_in.
  - intros Hnd c. apply jar_update_value, Hnd.
  - intros k. apply jar_update_other.
Qed.

(** A login that returns false has left the jar as it was, with one
    exception: when the page was driven to the end and one of the dicts the
    browser returned lacks a key, the cookies before that dict were stored
    and stay in the jar. *)
Theorem login_failure_jar (w w' : World) :
  login E w = (Return false, w') ->
  cookies w' = cookies w
  \/ exists user pass button marker l key rest,
       get_cookies E
         (trace w ++
          login_steps (of_opt (getenv E "LOGIN_URL"))
            (of_opt (getenv E "EMAIL")) (of_opt (getenv E "PASSWORD"))
            user pass button (Some marker))
       = inr (List.map Whole l ++ Lacking key :: rest)
       /\ cookies w' = jar_update l (cookies w).
Proof.
  unfold login. unfold_program.
  repeat (answer;
          try (intros Heq; injection Heq as <-; left; reflexivity)).
  rewrite for_each_copy_cookie. reduce.
  match goal with H : get_cookies E ?h = inr ?l |- _ =>
    pose proof (whole_prefix_stops l) as Hstop;
    destruct (whole_prefix l) as [p [k|]]; reduce;
    [|intros Heq; discriminate Heq];
    cbn [fst snd] in Hstop; destruct (Hstop k eq_refl) as [rest Hrest];
    rewrite Hrest in H
  end.
  intros Heq; injection Heq as <-. right.
  do 4 eexists. exists p, k, rest. cbn [cookies].
  split; [|reflexivity].
  unfold login_steps, marker_wait.
  match goal with H : get_cookies E ?h = inr _ |- _ =>
    rewrite <- H; f_equal end.
  rewrite <- !app_assoc. reflexivity.
Qed.

(** On a page that cooperates, [login] returns true with the jar updated
    by the cookies of the browser. *)
Lemma login_succeeds (w : World) :
  (forall h ev, call E h ev = None) ->
  (forall h wt, exists el, until E h wt = inr el) ->
  (forall h, exists l, get_cookies E h = inr (List.map Whole l)) ->
  exists h l w',
    login E w = (Return true, w')
    /\ get_cookies E h = inr (List.map Whole l)
    /\ cookies w' = jar_update l (cookies w).
Proof.
  intros Hcall Hwait Hcookies. unfold login. unfold_program.
  repeat match goal with
         | |- context [call E ?h ?ev] => rewrite (Hcall h ev); reduce
         | |- context [until E ?h ?wt] =>
             let el := fresh "el" in
             let Hel := fresh "Hel" in
             destruct (Hwait h wt) as [el Hel]; rewrite Hel; reduce
         end.
  match goal with |- context [get_cookies E ?h] =>
    destruct (Hcookies h) as [l Hl]; rewrite Hl; reduce end.
  rewrite for_each_copy_cookie. reduce.
  assert (Hp : whole_prefix (List.map Whole l) = (l, None)).
  { clear. induction l as [|c l IH]; [reflexivity|].
    cbn [List.map whole_prefix]. rewrite IH. reflexivity. }
  rewrite Hp. reduce.
  eexists _, l, _. split; [reflexivity|]. split; [exact Hl|reflexivity].
Qed.

End MoreLogin.

(** ** Further properties: [fetch_content] *)

Section MoreFetch.

Variable E : Env.

(** The world [fetch_content] leaves: one more call, the jar of the session
    after it, some more lines. *)
Lemma fetch_content_world (w w' : World) (r : result (option string)) :
  fetch_content E w = (r, w') ->
  exists lines,
    w' = mkWorld
           (trace w ++
            [EvHttpGet (of_opt (getenv E "GENERATION_ENDPOINT")) 2000
               (cookies w)])
           (jar_after_fetch E w) (logs w ++ lines).
Proof.
  unfold fetch_content, jar_after_fetch. unfold_program. answer.
  - destruct (is_RequestException _); reduce;
      intros Heq; injection Heq as <- <-;
      [eexists; reflexivity|exists []; rewrite app_nil_r; reflexivity].
  - destruct (_ && _); reduce.
    + destruct (is_RequestException _); reduce;
        intros Heq; injection Heq as <- <-;
        [eexists; reflexivity|exists []; rewrite app_nil_r; reflexivity].
    + destruct (negb _); reduce; intros Heq; injection Heq as <- <-;
        [eexists; reflexivity|].
      eexists. rewrite <- app_assoc. reflexivity.
Qed.

Lemma fetch_content_jar (w w' : World) (r : result (option string)) :
  fetch_content E w = (r, w') -> cookies w' = jar_after_fetch E w.
Proof.
  intros Hfetch. destruct (fetch_content_world _ _ _ Hfetch) as [lines ->].
  reflexivity.
Qed.

Lemma fetch_content_trace (w w' : World) (r : result (option string)) :
  fetch_content E w = (r, w') ->
  trace w'
  = trace w ++
    [EvHttpGet (of_opt (getenv E "GENERATION_ENDPOINT")) 2000 (cookies w)].
Proof.
  intros Hfetch. destruct (fetch_content_world _ _ _ Hfetch) as [lines ->].
  reflexivity.
Qed.

(** Whatever the endpoint answers, [fetch_content] makes one request and no
    other call: a GET on [GENERATION_ENDPOINT] with a timeout of 2000
    seconds that carries the jar.  It writes nothing into the jar itself:
    the jar it leaves is the one the session has after that request, with
    the cookies the endpoint set or deleted, also when nothing is returned
    or an exception leaves. *)
Theorem fetch_content_one_request
  (w w' : World) (r : result (option string)) :
  fetch_content E w = (r, w') ->
  trace w'
  = trace w ++
    [EvHttpGet (of_opt (getenv E "GENERATION_ENDPOINT")) 2000 (cookies w)]
  /\ cookies w' = jar_after_fetch E w.
Proof.
  intros Hfetch. destruct (fetch_content_world _ _ _ Hfetch) as [lines ->].
  split; reflexivity.
Qed.

(** An exception leaves [fetch_content] exactly when the request raises one
    that is not a [RequestException]; the HTTP error of a 4xx or 5xx status
    never does. *)
Theorem fetch_content_raises (w w' : World) (e : exn) :
  fetch_content E w = (Raise e, w')
  <-> endpoint_answer E w = inl e
      /\ is_RequestException e = false
      /\ w' = mkWorld
                (trace w ++
                 [EvHttpGet (of_opt (getenv E "GENERATION_ENDPOINT")) 2000
                    (cookies w)])
                (jar_after_fetch E w) (logs w).
Proof.
  unfold endpoint_answer, jar_after_fetch, fetch_content. unfold_program.
  destruct (session_get E _ _ _ _) as [e'|r]; reduce.
  - destruct (is_RequestException e') eqn:Hreq; reduce.
    + split; [discriminate|]. intros [Heq [Hno _]]. congruence.
    + split.
      * intros Heq. injection Heq as -> <-. auto.
      * intros [Heq [_ ->]]. injection Heq as ->. reflexivity.
  - split; [|intros [Heq _]; discriminate].
    destruct (_ && _); reduce; [cbn; discriminate|].
    destruct (negb _); reduce; discriminate.
Qed.

(** A content that is returned is the body of the response without the
    white space around it: the body is white space, the content, white
    space, and the content is not empty and has white space at neither
    end. *)
Theorem fetch_content_stripped (w w' : World) (c : string) :
  fetch_content E w = (Return (Some c), w') ->
  exists r l t,
    endpoint_answer E w = inr r
    /\ text r = l +:+ c +:+ t
    /\ Py.all_space l = true
    /\ Py.all_space t = true
    /\ c <> EmptyString
    /\ Py.starts_with_space c = false
    /\ Py.ends_with_space c = false.
Proof.
  unfold endpoint_answer, fetch_content. unfold_program.
  destruct (session_get E _ _ _ _) as [e|r]; reduce.
  - destruct (is_RequestException _); reduce; discriminate.
  - destruct (_ && _); reduce;
      [destruct (is_RequestException _); reduce; discriminate|].
    destruct (negb (Py.truthy_str (Py.strip (text r)))) eqn:Hblank; reduce;
      [discriminate|].
    intros Heq. injection Heq as <- _.
    assert (Hbody : Py.all_space (text r) = false).
    { destruct (Py.all_space (text r)) eqn:Hall; [|reflexivity].
      apply strip_empty in Hall. rewrite Hall in Hblank. discriminate. }
    destruct (strip_is_the_trimmed_body _ Hbody) as [l [t Htrim]].
    exists r, l, t. split; [reflexivity|exact Htrim].
Qed.

End MoreFetch.

(** ** Further properties: [post_content_to_platform] *)

Section MorePublisher.

Variable E : Env.

Lemma jar_truthy_true (jar : Jar) : jar_truthy jar = true -> jar <> ∅.
Proof. intros Ht ->. rewrite jar_truthy_empty in Ht. discriminate. Qed.

Lemma post_guard (content : string) (w : World) :
  cookies w = ∅ ->
  fst (post_content_to_platform E content w) = Return false.
Proof.
  intros Hjar. unfold post_content_to_platform.
  rewrite Hjar, jar_truthy_empty. reflexivity.
Qed.

(** [post_content_to_platform] never writes the jar. *)
Theorem post_keeps_jar (content : string) (w w' : World) (r : result bool) :
  post_content_to_platform E content w = (r, w') -> cookies w' = cookies w.
Proof.
  unfold post_content_to_platform.
  destruct (negb (jar_truthy (cookies w))); unfold_program;
    [intros Heq; injection Heq as <- <-; reflexivity|].
  decode E content; reduce;
    repeat (answer;
            try (intros Heq; injection Heq as <- <-; reflexivity)).
Qed.

(** [post_content_to_platform] returns true only after the whole composer
    was driven: the session held cookies, the content decoded to a document
    with both keys, the title was cleared and sent the value under [topic],
    the body was cleared and sent the value under [forumPost], and the
    submit button was clicked last. *)
Theorem post_true_only_after_submit (content : string) (w w' : World) :
  post_content_to_platform E content w = (Return true, w') ->
  cookies w <> ∅
  /\ exists doc topic forumPost new_topic title category srfc body submit,
       json_loads E content = inr doc
       /\ getitem doc "topic" = inr topic
       /\ getitem doc "forumPost" = inr forumPost
       /\ trace w'
          = trace w ++
            composer_calls (of_opt (getenv E "PLATFORM_POST_URL"))
              new_topic title
            ++ filling_calls topic forumPost title category srfc body submit.
Proof.
  unfold post_content_to_platform.
  destruct (jar_truthy (cookies w)) eqn:Hjar; cbn [negb]; unfold_program;
    [|discriminate].
  intros Hrun. split; [apply jar_truthy_true, Hjar|]. revert Hrun.
  decode E content; reduce;
    repeat (answer; try (intros Heq; discriminate Heq)).
  intros Heq. injection Heq as <-.
  exists doc, topic, forumPost. do 6 eexists.
  split; [reflexivity|]. split; [exact Htopic|]. split; [exact Hpost|].
  cbn [trace]. unfold composer_calls, filling_calls.
  rewrite <- !app_assoc. reflexivity.
Qed.

Lemma post_goes_through
  (content : string) (doc topic forumPost : value) (w : World) :
  cookies w <> ∅ ->
  json_loads E content = inr doc ->
  getitem doc "topic" = inr topic ->
  getitem doc "forumPost" = inr forumPost ->
  (forall h ev, call E h ev = None) ->
  (forall h wt, exists el, until E h wt = inr el) ->
  fst (post_content_to_platform E content w) = Return true.
Proof.
  intros Hjar Hdoc Htopic Hpost Hcall Hwait.
  unfold post_content_to_platform.
  rewrite (jar_truthy_nonempty _ Hjar), Hdoc. unfold_program.
  rewrite Htopic, Hpost. reduce.
  repeat match goal with
         | |- context [call E ?h ?ev] => rewrite (Hcall h ev); reduce
         | |- context [until E ?h ?wt] =>
             let el := fresh "el" in
             let Hel := fresh "Hel" in
             destruct (Hwait h wt) as [el Hel]; rewrite Hel; reduce
         end.
  reflexivity.
Qed.

(** On a page that cooperates, any document with both keys is posted: the
    values under [topic] and [forumPost] are typed as they are, whatever
    their type. *)
Theorem post_types_document_fields
  (content : string) (doc topic forumPost : value) (w : World) :
  cookies w <> ∅ ->
  json_loads E content = inr doc ->
  getitem doc "topic" = inr topic ->
  getitem doc "forumPost" = inr forumPost ->
  (forall h ev, call E h ev = None) ->
  (forall h wt, exists el, until E h wt = inr el) ->
  exists new_topic title category srfc body submit w',
    post_content_to_platform E content w = (Return true, w')
    /\ trace w'
       = trace w ++
         composer_calls (of_opt (getenv E "PLATFORM_POST_URL"))
           new_topic title
         ++ filling_calls topic forumPost title category srfc body submit.
Proof.
  intros Hjar Hdoc Htopic Hpost Hcall Hwait.
  unfold post_content_to_platform.
  rewrite (jar_truthy_nonempty _ Hjar), Hdoc. unfold_program.
  rewrite Htopic, Hpost. reduce.
  repeat match goal with
         | |- context [call E ?h ?ev] => rewrite (Hcall h ev); reduce
         | |- context [until E ?h ?wt] =>
             let el := fresh "el" in
             let Hel := fresh "Hel" in
             destruct (Hwait h wt) as [el Hel]; rewrite Hel; reduce
         end.
  do 7 eexists. split; [reflexivity|].
  cbn [trace]. unfold composer_calls, filling_calls.
  rewrite <- !app_assoc. reflexivity.
Qed.

(** Malformed content is found out late.  On a page that cooperates the
    browser is navigated, the composer is opened and the title field is
    waited for before the content is decoded; then the call returns false,
    and nothing was typed. *)
Theorem post_malformed_after_composer (content : string) (w : World) :
  cookies w <> ∅ ->
  malformed E content ->
  (forall h ev, call E h ev = None) ->
  (forall h wt, exists el, until E h wt = inr el) ->
  exists new_topic title w',
    post_content_to_platform E content w = (Return false, w')
    /\ trace w'
       = trace w ++
         composer_calls (of_opt (getenv E "PLATFORM_POST_URL"))
           new_topic title.
Proof.
  intros Hjar Hbad Hcall Hwait. unfold malformed in Hbad.
  unfold post_content_to_platform.
  rewrite (jar_truthy_nonempty _ Hjar). unfold_program.
  decode E content; reduce;
    repeat match goal with
           | |- context [call E ?h ?ev] => rewrite (Hcall h ev); reduce
           | |- context [until E ?h ?wt] =>
               let el := fresh "el" in
               let Hel := fresh "Hel" in
               destruct (Hwait h wt) as [el Hel]; rewrite Hel; reduce
           end.
  - do 3 eexists. split; [reflexivity|].
    cbn [trace]. unfold composer_calls. rewrite <- !app_assoc. reflexivity.
  - do 3 eexists. split; [reflexivity|].
    cbn [trace]. unfold composer_calls. rewrite <- !app_assoc. reflexivity.
  - do 3 eexists. split; [reflexivity|].
    cbn [trace]. unfold composer_calls. rewrite <- !app_assoc. reflexivity.
  - exfalso. destruct Hbad as [Hbad|Hbad];
      apply getitem_no_key in Hbad as [bad Hget]; congruence.
Qed.

End MorePublisher.

(** ** Further properties: [run] and the driver *)

Section MoreWorkflow.

Variable E : Env.

Lemma getitem_has_key (k : string) (v : value) :
  has_key k v = true -> exists x, getitem v k = inr x.
Proof.
  destruct v; simpl; try discriminate.
  destruct (dict_get k items); [eauto|discriminate].
Qed.

Lemma run_login_false (w w1 : World) :
  login E w = (Return false, w1) -> run E w = (Return false, w1).
Proof. apply run_after_login_false. Qed.

(** An exception leaves [run] exactly when [login] returned true and the
    fetch that followed raised it: neither [login] nor the posting lets one
    out. *)
Theorem run_raises (w w' : World) (e : exn) :
  run E w = (Raise e, w')
  <-> exists w1,
        login E w = (Return true, w1)
        /\ fetch_content E w1 = (Raise e, w').
Proof.
  destruct (login_returns E w) as [[|] [w1 Hlogin]].
  - rewrite (run_after_fetch E w w1 Hlogin).
    destruct (fetch_content E w1) as [[[c|]|e'] w2] eqn:Hfetch.
    + destruct (Py.truthy_str c).
      * destruct (post_returns E c w2) as [b [w3 Hpost]]. rewrite Hpost.
        split; [discriminate|].
        intros [w1' [Hl Hf]]. rewrite Hlogin in Hl. injection Hl as <-.
        rewrite Hfetch in Hf. discriminate.
      * split; [discriminate|].
        intros [w1' [Hl Hf]]. rewrite Hlogin in Hl. injection Hl as <-.
        rewrite Hfetch in Hf. discriminate.
    + split; [discriminate|].
      intros [w1' [Hl Hf]]. rewrite Hlogin in Hl. injection Hl as <-.
      rewrite Hfetch in Hf. discriminate.
    + split.
      * intros Heq. injection Heq as -> ->. exists w1. auto.
      * intros [w1' [Hl Hf]]. rewrite Hlogin in Hl. injection Hl as <-.
        rewrite Hfetch in Hf. injection Hf as -> ->. reflexivity.
  - rewrite (run_after_login_false E w w1 Hlogin).
    split; [discriminate|]. intros [w1' [Hl _]]. congruence.
Qed.

(** When the session holds no cookie, the browser has none to give and the
    endpoint sets none, [run] never returns true: even after a login that
    succeeded and a fetch that returned content, the posting stops at its
    guard. *)
Theorem run_needs_a_cookie (w w' : World) :
  cookies w = ∅ ->
  (forall h l, get_cookies E h = inr l -> l = []) ->
  (forall h url t, session_jar E h ∅ url t = ∅) ->
  run E w <> (Return true, w').
Proof.
  intros Hjar Hnone Hkeeps.
  destruct (login_returns E w) as [[|] [w1 Hlogin]].
  - rewrite (run_after_fetch E w w1 Hlogin).
    assert (Hjar1 : cookies w1 = ∅).
    { destruct (login_jar E _ _ _ Hlogin) as [[_ ->]|[h [l [Hget [-> _]]]]];
        [exact Hjar|].
      rewrite (Hnone h l Hget). exact Hjar. }
    destruct (fetch_content E w1) as [[[c|]|e] w2] eqn:Hfetch;
      try discriminate.
    destruct (Py.truthy_str c); [|discriminate].
    pose proof (fetch_content_jar E _ _ _ Hfetch) as Hjar2.
    unfold jar_after_fetch in Hjar2. rewrite Hjar1, Hkeeps in Hjar2.
    pose proof (post_guard E c w2 Hjar2) as Hguard.
    destruct (post_content_to_platform E c w2) as [[b|e] w3];
      simpl in Hguard; [|discriminate].
    injection Hguard as ->. discriminate.
  - rewrite (run_after_login_false E w w1 Hlogin). discriminate.
Qed.

(** The three steps compose.  When the pages cooperate, the browser has a
    cookie to give, each of its cookies has its three keys, the endpoint
    answers, with a status that is not an error, a body that strips to a
    document with both keys, and does not empty the jar, [run] returns
    true. *)
Theorem run_succeeds (w : World) (r : Response) (doc : value) :
  (forall h ev, call E h ev = None) ->
  (forall h wt, exists el, until E h wt = inr el) ->
  (forall h, exists c l, get_cookies E h = inr (List.map Whole (c :: l))) ->
  (forall h jar url t, session_get E h jar url t = inr r) ->
  (forall h jar url t, jar <> ∅ -> session_jar E h jar url t <> ∅) ->
  ~ 400 <= status_code r < 600 ->
  Py.all_space (text r) = false ->
  json_loads E (Py.strip (text r)) = inr doc ->
  has_key "topic" doc = true ->
  has_key "forumPost" doc = true ->
  exists w', run E w = (Return true, w').
Proof.
  intros Hcall Hwait Hcookies Hget Hkeeps Hstatus Hbody Hdoc Htopic Hpost.
  destruct (login_succeeds E w Hcall Hwait) as [h [l [w1 [Hlogin [Hl Hjar]]]]].
  { intros h. destruct (Hcookies h) as [c [l Hl]]. eauto. }
  destruct (Hcookies h) as [c [l' Hl']].
  assert (Hsame : List.map Whole l = List.map Whole (c :: l')) by congruence.
  assert (Hin : In c l).
  { assert (Hc : In (Whole c) (List.map Whole l))
      by (rewrite Hsame; left; reflexivity).
    apply List.in_map_iff in Hc as [c0 [Heq Hc0]]. injection Heq as ->.
    exact Hc0. }
  assert (Hjar1 : cookies w1 <> ∅).
  { rewrite Hjar. apply (jar_update_nonempty _ _ c), Hin. }
  rewrite (run_after_fetch E w w1 Hlogin).
  destruct (fetch_content E w1) as [rf w2] eqn:Hfetch.
  destruct (fetch_content_text E w1 r (Hget _ _ _ _) Hstatus Hbody)
    as [Hres Hne].
  rewrite Hfetch in Hres. simpl in Hres. subst rf.
  pose proof (fetch_content_jar E _ _ _ Hfetch) as Hjar2.
  destruct (Py.strip (text r)) as [|a s] eqn:Hstrip; [congruence|].
  cbn [Py.truthy_str].
  destruct (getitem_has_key _ _ Htopic) as [topic Ht].
  destruct (getitem_has_key _ _ Hpost) as [forumPost Hp].
  assert (Hposted : fst (post_content_to_platform E (String a s) w2)
                    = Return true).
  { apply (post_goes_through E (String a s) doc topic forumPost);
      try assumption.
    rewrite Hjar2. apply Hkeeps, Hjar1. }
  destruct (post_content_to_platform E (String a s) w2) as [rp w3].
  simpl in Hposted. subst rp. eauto.
Qed.

(** ** Sleeping *)







Lemma sleep_rejects (posting_interval : Z) (w : World) :
  posting_interval < 0 \/ max_interval < posting_interval ->
  exists e,
    time_sleep (posting_interval * 60 * 60) w = (Raise e, w)
    /\ exn_cls e
       = if (- max_interval <=? posting_interval) && (posting_interval <? 0)
         then ValueError else OverflowError.
Proof.
  unfold time_sleep, raise. intros Hout.
  destruct (Z.ltb_spec (posting_interval * 60 * 60) (- sleep_max));
    destruct (Z.ltb_spec sleep_max (posting_interval * 60 * 60));
    destruct (Z.ltb_spec (posting_interval * 60 * 60) 0);
    destruct (Z.leb_spec (- max_interval) posting_interval);
    destruct (Z.ltb_spec posting_interval 0);
    cbn [orb andb]; unfold max_interval, sleep_max in *; try lia;
    eexists; split; reflexivity.
Qed.

(** With an interval outside these hours the loop does not survive its
    first cycle: one [run], its two log lines, and the error of the sleep,
    which nothing catches, a [ValueError] for a negative interval down to
    -2562047 hours and an [OverflowError] otherwise.  Nothing was slept and
    no second cycle starts. *)
Theorem interval_out_of_range_one_cycle
  (w0 w : World) (s : string) (posting_interval : Z) (n : nat) :
  getenv E "POSTING_INTERVAL" = Some s ->
  Py.int s = Some posting_interval ->
  posting_interval < 0 \/ max_interval < posting_interval ->
  init E w0 = (Return tt, w) ->
  exists r w1 line1 line2 e,
    run E w = (r, w1)
    /\ main E (S n) w0
       = (Some (Uncaught e),
          mkWorld (trace w1) (cookies w1) (logs w1 ++ [line1; line2]))
    /\ exn_cls e
       = if (- max_interval <=? posting_interval) && (posting_interval <? 0)
         then ValueError else OverflowError.
Proof.
  intros Henv Hint Hout Hinit.
  destruct (cycle_returns E w) as [r [w1 [line [Hrun Hcycle]]]].
  exists r, w1. unfold main, drive.
  rewrite Hinit, Henv, (int_truthy _ _ Hint), Hint.
  cbn [while_true]. unfold iteration, bind. rewrite Hcycle.
  unfold log at 1. cbn [enabled].
  match goal with |- context [time_sleep _ ?w2] =>
    destruct (sleep_rejects posting_interval w2 Hout) as [e [Hsleep Hcls]]
  end.
  rewrite Hsleep. do 2 eexists. exists e.
  split; [exact Hrun|]. split; [|exact Hcls].
  cbn [trace cookies logs]. rewrite <- app_assoc. reflexivity.
Qed.

(** An interval set to the empty string is an interval that is not set: one
    [run], one log line, [exit(0)]. *)
Theorem empty_interval_like_unset (w0 w : World) (n : nat) :
  getenv E "POSTING_INTERVAL" = Some EmptyString ->
  init E w0 = (Return tt, w) ->
  exists r w1 line,
    run E w = (r, w1)
    /\ main E n w0
       = (Some (SystemExit 0),
          mkWorld (trace w1) (cookies w1) (logs w1 ++ [line])).
Proof.
  intros Henv Hinit.
  destruct (cycle_returns E w) as [r [w1 [line [Hrun Hcycle]]]].
  exists r, w1, line. split; [exact Hrun|].
  unfold main, drive, run_once. rewrite Hinit, Henv. cbn [Py.truthy_str].
  rewrite Hcycle. reflexivity.
Qed.

End MoreWorkflow.

(** ** The further properties at concrete environments *)

Section MoreInstances.

Import Sample Trouble.

Lemma validate_names_exactly_missing_witness :
  (Py.contains "Missing required environment variables: LOGIN_URL, EMAIL"
     "EMAIL" = true
   <-> missing (calm [("GENERATION_ENDPOINT", "https://gen.example/api");
                      ("PLATFORM_POST_URL", "https://forum.example/latest");
                      ("EMAIL", EmptyString);
                      ("PASSWORD", "secret")]) "EMAIL" = true)
  /\ (Py.contains "Missing required environment variables: LOGIN_URL, EMAIL"
        "PASSWORD" = true
      <-> missing (calm [("GENERATION_ENDPOINT", "https://gen.example/api");
                         ("PLATFORM_POST_URL", "https://forum.example/latest");
                         ("EMAIL", EmptyString);
                         ("PASSWORD", "secret")]) "PASSWORD" = true).
Proof.
  split.
  - apply (validate_names_exactly_missing _ fresh fresh);
      [vm_compute; reflexivity|simpl; tauto].
  - apply (validate_names_exactly_missing _ fresh fresh);
      [vm_compute; reflexivity|simpl; tauto].
Defined.

Lemma init_builds_poster_witness :
  init (calm settings) logged_in
  = (Return tt,
     mkWorld (trace logged_in ++ init_calls "/tmp/tmpab12") ∅
       (logs logged_in)).
Proof.
  apply init_builds_poster.
  - intros k [<-|[<-|[<-|[<-|[<-|[]]]]]]; vm_compute; reflexivity.
  - reflexivity.
  - intros h ev. reflexivity.
Defined.

Lemma init_launch_failure_witness :
  init no_chrome fresh
  = (Raise (Exn WebDriverException "chrome not reachable"),
     mkWorld
       (trace fresh ++
        [EvMkdtemp;
         EvChrome (chrome_arguments ++ ["--user-data-dir=" +:+ "/tmp/tmpab12"])])
       (cookies fresh)
       (logs fresh ++
        [mkLog ERROR
           [Txt "Failed to initialize Chrome driver: ";
            Err (Exn WebDriverException "chrome not reachable")]])).
Proof.
  apply init_launch_failure.
  - intros k [<-|[<-|[<-|[<-|[<-|[]]]]]]; vm_compute; reflexivity.
  - reflexivity.
  - reflexivity.
Defined.

Lemma login_true_only_with_marker_witness :
  exists user pass button marker l,
    trace (snd (login (calm settings) fresh))
    = trace fresh ++
      login_calls (of_opt (getenv (calm settings) "LOGIN_URL"))
        (of_opt (getenv (calm settings) "EMAIL"))
        (of_opt (getenv (calm settings) "PASSWORD")) user pass button marker
    /\ get_cookies (calm settings)
         (trace fresh ++
          login_steps (of_opt (getenv (calm settings) "LOGIN_URL"))
            (of_opt (getenv (calm settings) "EMAIL"))
            (of_opt (getenv (calm settings) "PASSWORD"))
            user pass button (Some marker))
       = inr (List.map Whole l)
    /\ cookies (snd (login (calm settings) fresh))
       = jar_update l (cookies fresh).
Proof.
  apply login_true_only_with_marker. vm_compute. reflexivity.
Defined.

Lemma login_copies_every_cookie_witness :
  exists user pass button marker l,
    get_cookies quoting
      (trace fresh ++
       login_steps (of_opt (getenv quoting "LOGIN_URL"))
         (of_opt (getenv quoting "EMAIL")) (of_opt (getenv quoting "PASSWORD"))
         user pass button (Some marker))
    = inr (List.map Whole l)
    /\ (forall c, In c l ->
          is_Some (cookies (snd (login quoting fresh)) !! cookie_key c))
    /\ (List.NoDup (List.map cookie_key l) ->
        forall c, In c l ->
          cookies (snd (login quoting fresh)) !! cookie_key c
          = Some (stored_value (c_value c)))
    /\ (forall k, (forall c, In c l -> cookie_key c <> k) ->
          cookies (snd (login quoting fresh)) !! k = cookies fresh !! k).
Proof.
  apply login_copies_every_cookie. vm_compute. reflexivity.
Defined.

(** The value in double quotes, as the jar stores it: the escaped quote is
    gone. *)
Example quoted_value_stored :
  cookies (snd (login quoting fresh)) !! ("forum.example", "_q")
  = Some (q +:+ "ab" +:+ q).
Proof. vm_compute. reflexivity. Qed.

Lemma fetch_content_one_request_witness :
  trace (snd (fetch_content quoting logged_in))
  = trace logged_in ++
    [EvHttpGet (of_opt (getenv quoting "GENERATION_ENDPOINT")) 2000
       (cookies logged_in)]
  /\ cookies (snd (fetch_content quoting logged_in))
     = jar_after_fetch quoting logged_in.
Proof.
  apply (fetch_content_one_request quoting logged_in _
           (fst (fetch_content quoting logged_in))).
  vm_compute. reflexivity.
Defined.

(** The endpoint of that site sets a cookie: the jar has one more entry
    after the fetch. *)
Example fetch_content_stores_set_cookie :
  size (cookies logged_in) = 1%nat
  /\ size (cookies (snd (fetch_content quoting logged_in))) = 2%nat.
Proof. split; vm_compute; reflexivity. Qed.

Lemma fetch_content_stripped_witness :
  exists r l t,
    endpoint_answer (calm settings) fresh = inr r
    /\ text r = l +:+ content_TB +:+ t
    /\ Py.all_space l = true
    /\ Py.all_space t = true
    /\ content_TB <> EmptyString
    /\ Py.starts_with_space content_TB = false
    /\ Py.ends_with_space content_TB = false.
Proof.
  apply (fetch_content_stripped (calm settings) fresh
           (snd (fetch_content (calm settings) fresh))).
  vm_compute. reflexivity.
Defined.

Lemma post_keeps_jar_witness :
  cookies (snd (post_content_to_platform (stuck settings) content_TB
                  logged_in))
  = cookies logged_in.
Proof.
  apply (post_keeps_jar (stuck settings) content_TB logged_in _
           (Return false)).
  vm_compute. reflexivity.
Defined.

Lemma post_true_only_after_submit_witness :
  cookies logged_in <> ∅
  /\ exists doc topic forumPost new_topic title category srfc body submit,
       json_loads (calm settings) content_TB = inr doc
       /\ getitem doc "topic" = inr topic
       /\ getitem doc "forumPost" = inr forumPost
       /\ trace (snd (post_content_to_platform (calm settings) content_TB
                        logged_in))
          = trace logged_in ++
            composer_calls (of_opt (getenv (calm settings) "PLATFORM_POST_URL"))
              new_topic title
            ++ filling_calls topic forumPost title category srfc body submit.
Proof.
  apply post_true_only_after_submit. vm_compute. reflexivity.
Defined.

Lemma post_types_document_fields_witness :
  exists new_topic title category srfc body submit w',
    post_content_to_platform (calm settings) odd_document logged_in
    = (Return true, w')
    /\ trace w'
       = trace logged_in ++
         composer_calls (of_opt (getenv (calm settings) "PLATFORM_POST_URL"))
           new_topic title
         ++ filling_calls (VInt 7) (VList [VStr "a"])
              title category srfc body submit.
Proof.
  apply (post_types_document_fields (calm settings) odd_document
           (VDict [("topic", VInt 7); ("forumPost", VList [VStr "a"])])).
  - apply insert_non_empty.
  - vm_compute. reflexivity.
  - reflexivity.
  - reflexivity.
  - intros h ev. reflexivity.
  - intros h wt. eexists. reflexivity.
Defined.

Lemma post_malformed_after_composer_witness :
  exists new_topic title w',
    post_content_to_platform (calm settings) "not json" logged_in
    = (Return false, w')
    /\ trace w'
       = trace logged_in ++
         composer_calls (of_opt (getenv (calm settings) "PLATFORM_POST_URL"))
           new_topic title.
Proof.
  apply post_malformed_after_composer.
  - apply insert_non_empty.
  - unfold malformed. vm_compute. exact I.
  - intros h ev. reflexivity.
  - intros h wt. eexists. reflexivity.
Defined.

Lemma run_needs_a_cookie_witness :
  run cookieless fresh <> (Return true, snd (run cookieless fresh)).
Proof.
  apply run_needs_a_cookie.
  - reflexivity.
  - intros h l Hl. injection Hl as <-. reflexivity.
  - intros h url t. reflexivity.
Defined.

Lemma run_succeeds_witness :
  exists w', run (calm settings) fresh = (Return true, w').
Proof.
  apply (run_succeeds (calm settings) fresh ok_response parsed_TB).
  - intros h ev. reflexivity.
  - intros h wt. eexists. reflexivity.
  - intros h. exists (mkCookie "_t" "abc" "forum.example"), []. reflexivity.
  - intros h jar url t. reflexivity.
  - intros h jar url t Hjar. exact Hjar.
  - simpl. lia.
  - vm_compute. reflexivity.
  - vm_compute. reflexivity.
  - reflexivity.
  - reflexivity.
Defined.


Lemma interval_out_of_range_one_cycle_witness :
  exists r w1 line1 line2 e,
    run (stuck (("POSTING_INTERVAL", "3000000") :: settings))
      (built (stuck (("POSTING_INTERVAL", "3000000") :: settings)))
    = (r, w1)
    /\ main (stuck (("POSTING_INTERVAL", "3000000") :: settings)) 3 fresh
       = (Some (Uncaught e),
          mkWorld (trace w1) (cookies w1) (logs w1 ++ [line1; line2]))
    /\ exn_cls e
       = if (- max_interval <=? 3000000) && (3000000 <? 0)
         then ValueError else OverflowError.
Proof.
  apply (interval_out_of_range_one_cycle
           (stuck (("POSTING_INTERVAL", "3000000") :: settings)) fresh _
           "3000000" 3000000 2).
  - vm_compute. reflexivity.
  - vm_compute. reflexivity.
  - right. unfold max_interval. lia.
  - vm_compute. reflexivity.
Defined.

Lemma empty_interval_like_unset_witness :
  exists r w1 line,
    run (calm (("POSTING_INTERVAL", EmptyString) :: settings))
      (built (calm (("POSTING_INTERVAL", EmptyString) :: settings)))
    = (r, w1)
    /\ main (calm (("POSTING_INTERVAL", EmptyString) :: settings)) 0 fresh
       = (Some (SystemExit 0),
          mkWorld (trace w1) (cookies w1) (logs w1 ++ [line])).
Proof.
  apply empty_interval_like_unset.
  - vm_compute. reflexivity.
  - vm_compute. reflexivity.
Defined.

End MoreInstances.

(** ** Further properties: who is talked to, and when *)

Section MoreTraces.

Variable E : Env.

(** [login] talks to the browser and to nobody else. *)
Lemma login_browser_only (w w' : World) (r : result bool) :
  login E w = (r, w') ->
  exists events,
    trace w' = trace w ++ events /\ forallb is_browser events = true.
Proof.
  unfold login. unfold_program.
  repeat (answer; try browser_only).
  rewrite for_each_copy_cookie. reduce.
  destruct (snd (whole_prefix _)); reduce; browser_only.
Qed.

Lemma post_browser_only (content : string) (w w' : World) (r : result bool) :
  post_content_to_platform E content w = (r, w') ->
  exists events,
    trace w' = trace w ++ events /\ forallb is_browser events = true.
Proof.
  unfold post_content_to_platform.
  destruct (negb (jar_truthy (cookies w))); unfold_program.
  - intros Heq; injection Heq as <- <-. exists []. cbn [trace].
    rewrite app_nil_r. split; reflexivity.
  - decode E content; reduce; repeat (answer; try browser_only).
Qed.

Lemma filter_browser (f : Event -> bool) (events : list Event) :
  (forall ev, is_browser ev = true -> f ev = false) ->
  forallb is_browser events = true ->
  List.filter f events = [].
Proof.
  intros Hf. induction events as [|ev events IH]; [reflexivity|].
  cbn [forallb List.filter]. intros Hall.
  apply andb_prop in Hall as [Hev Hall].
  rewrite (Hf ev Hev). apply IH, Hall.
Qed.

Lemma is_request_browser (ev : Event) :
  is_browser ev = true -> is_request ev = false.
Proof. destruct ev; simpl; congruence. Qed.

(** [run] makes an HTTP request only after a login that returned true, and
    then exactly one: the GET of [fetch_content], which carries the jar as
    that login left it.  A run whose login fails makes none. *)
Theorem run_requests_once_after_login
  (w w' : World) (r : result bool) :
  run E w = (r, w') ->
  exists logged_in w1,
    login E w = (Return logged_in, w1)
    /\ requests (trace w')
       = requests (trace w)
         ++ (if logged_in
             then [EvHttpGet (of_opt (getenv E "GENERATION_ENDPOINT")) 2000
                     (cookies w1)]
             else []).
Proof.
  destruct (login_returns E w) as [logged_in [w1 Hlogin]].
  intros Hrun. exists logged_in, w1. split; [exact Hlogin|].
  destruct (login_browser_only _ _ _ Hlogin) as [ev1 [Ht1 Hb1]].
  assert (H1 : requests (trace w1) = requests (trace w)).
  { rewrite Ht1. unfold requests. rewrite List.filter_app.
    rewrite (filter_browser _ _ is_request_browser Hb1). apply app_nil_r. }
  destruct logged_in.
  - rewrite (run_after_fetch E w w1 Hlogin) in Hrun.
    destruct (fetch_content E w1) as [rf w2] eqn:Hfetch.
    pose proof (fetch_content_trace E _ _ _ Hfetch) as Ht2.
    assert (H2 : requests (trace w2)
                 = requests (trace w)
                   ++ [EvHttpGet (of_opt (getenv E "GENERATION_ENDPOINT"))
                         2000 (cookies w1)]).
    { rewrite Ht2. unfold requests in *. rewrite List.filter_app, H1.
      reflexivity. }
    destruct rf as [[c|]|e];
      try (injection Hrun as <- <-; exact H2).
    destruct (Py.truthy_str c); [|injection Hrun as <- <-; exact H2].
    destruct (post_content_to_platform E c w2) as [rp w3] eqn:Hpost.
    destruct (post_browser_only _ _ _ _ Hpost) as [ev3 [Ht3 Hb3]].
    assert (H3 : requests (trace w3) = requests (trace w2)).
    { rewrite Ht3. unfold requests. rewrite List.filter_app.
      rewrite (filter_browser _ _ is_request_browser Hb3). apply app_nil_r. }
    destruct rp; injection Hrun as <- <-; rewrite H3; exact H2.
  - rewrite (run_after_login_false E w w1 Hlogin) in Hrun.
    injection Hrun as <- <-. rewrite H1. symmetry. apply app_nil_r.
Qed.

(** Malformed content is never typed into the page, whatever the browser
    does: the posting fails before its first [send_keys]. *)
Theorem post_malformed_types_nothing
  (content : string) (w w' : World) (r : result bool) :
  malformed E content ->
  post_content_to_platform E content w = (r, w') ->
  typed (trace w') = typed (trace w).
Proof.
  unfold malformed. intros Hbad. unfold post_content_to_platform.
  destruct (negb (jar_truthy (cookies w))); unfold_program;
    [nothing_typed|].
  decode E content; reduce.
  - repeat (answer; try nothing_typed).
  - repeat (answer; try nothing_typed).
  - repeat (answer; try nothing_typed).
  - exfalso. destruct Hbad as [Hbad|Hbad];
      apply getitem_no_key in Hbad as [bad Hget]; congruence.
Qed.

End MoreTraces.

Section TraceInstances.

Import Sample Trouble.

Lemma run_requests_once_after_login_witness :
  exists logged_in w1,
    login (rejecting settings) fresh = (Return logged_in, w1)
    /\ requests (trace (snd (run (rejecting settings) fresh)))
       = requests (trace fresh)
         ++ (if logged_in
             then [EvHttpGet
                     (of_opt (getenv (rejecting settings)
                                "GENERATION_ENDPOINT"))
                     2000 (cookies w1)]
             else []).
Proof.
  apply (run_requests_once_after_login (rejecting settings) fresh _
           (Return false)).
  vm_compute. reflexivity.
Defined.

(** The second dict lacks [domain]: the login returns false and the first
    cookie stays in the jar. *)
Lemma login_failure_jar_witness :
  cookies (snd (login half_cookies fresh)) = cookies fresh
  \/ exists user pass button marker l key rest,
       get_cookies half_cookies
         (trace fresh ++
          login_steps (of_opt (getenv half_cookies "LOGIN_URL"))
            (of_opt (getenv half_cookies "EMAIL"))
            (of_opt (getenv half_cookies "PASSWORD"))
            user pass button (Some marker))
       = inr (List.map Whole l ++ Lacking key :: rest)
       /\ cookies (snd (login half_cookies fresh))
          = jar_update l (cookies fresh).
Proof.
  apply (login_failure_jar half_cookies).
  vm_compute. reflexivity.
Defined.

Example login_failure_keeps_copied_cookie :
  fst (login half_cookies fresh) = Return false
  /\ cookies (snd (login half_cookies fresh)) !! ("forum.example", "_t")
     = Some "abc"
  /\ cookies (snd (login half_cookies fresh)) !! ("forum.example", "_s")
     = None.
Proof. split; [|split]; vm_compute; reflexivity. Qed.

Lemma post_malformed_types_nothing_witness :
  typed (trace (snd (post_content_to_platform (calm settings)
                       ("{" +:+ q +:+ "topic" +:+ q +:+ ": 1}") logged_in)))
  = typed (trace logged_in).
Proof.
  apply (post_malformed_types_nothing (calm settings)
           ("{" +:+ q +:+ "topic" +:+ q +:+ ": 1}") logged_in _
           (Return false)).
  - unfold malformed. vm_compute. right. reflexivity.
  - vm_compute. reflexivity.
Defined.

End TraceInstances.
